(** * Process animations: the progress arithmetic behind the views

    A shallow embedding of the clinical-workflow animation components
    (NurseAssessmentAnimation, DoctorProcessAnimation, CombinedAnimation)
    and the properties of the elapsed-time progress values that drive them.

    Conventions of the embedding.
    - A TypeScript [number] is a real number ([R]): the properties below
      are stated for real-valued progress, time and delay, so rounding, NaN
      and the infinities are outside the model.  [Math.min] and [Math.max]
      are [Rmin] and [Rmax], [Math.pow x n] for a literal [n] is [x ^ n].
    - An optional prop [p?: T] is an [option T]; [None] is [undefined]
      (the prop was omitted).  A string used as a condition is tested for
      truthiness: [undefined] and the empty string are falsy.
    - A component is the function from its props (and state) to the part of
      the rendered tree that depends on them; [None] is a render of [null].
    - The browser is the frame-callback list of [requestAnimationFrame] with
      its handle counter; the SVG path geometry is a parameter.
    - Where a property turns on rounding, the arithmetic is also given in
      the code's own binary64 ([Binary64]) and evaluated there. *)

From Stdlib Require Import Reals Lra List String Bool Arith Lia.
From Stdlib Require Import Floats.
From Stdlib Require Uint63.
Import ListNotations.

Open Scope R_scope.

(** ** The language: relational operators, truthiness, defaults *)

Module JS.

(** [x <= y], [x < y], [x >= y], [x > y] on numbers, as conditions. *)
Definition leb (x y : R) : bool := if Rle_dec x y then true else false.
Definition ltb (x y : R) : bool := if Rlt_dec x y then true else false.
Definition geb (x y : R) : bool := if Rge_dec x y then true else false.
Definition gtb (x y : R) : bool := if Rgt_dec x y then true else false.

(** A [string | undefined] in a boolean context. *)
Definition truthy (s : option string) : bool :=
  match s with
  | Some u => negb (u =? EmptyString)%string
  | None => false
  end.

(** A destructuring default [{ p = d }]: [d] replaces [undefined]. *)
Definition default {A : Type} (d : A) (o : option A) : A :=
  match o with
  | Some v => v
  | None => d
  end.

(** [Number.MAX_VALUE], the largest finite number. *)
Definition MAX_VALUE : R := (2 - / 2 ^ 52) * 2 ^ 1023.

(** [o !== undefined]. *)
Definition defined {A : Type} (o : option A) : bool :=
  match o with
  | Some _ => true
  | None => false
  end.

(** [Array.prototype.map] with the callback's index argument. *)
Fixpoint map_from {A B : Type} (f : A -> nat -> B) (i : nat) (l : list A) : list B :=
  match l with
  | [] => []
  | a :: l' => f a i :: map_from f (S i) l'
  end.

Definition map_indexed {A B : Type} (f : A -> nat -> B) (l : list A) : list B :=
  map_from f 0 l.

End JS.

(** ** The browser: animation-frame callbacks and SVG path geometry *)

Module Browser.

(** The document's animation frame callback identifier and the handles of
    the callbacks waiting for the next frame, oldest first. *)
Record t : Type := mk
  { identifier : nat;
    callbacks : list nat }.

(** [requestAnimationFrame(cb)]: the identifier is incremented, the result
    is the handle, and the callback is appended under that handle. *)
Definition requestAnimationFrame (b : t) : nat * t :=
  let h := S (identifier b) in
  (h, {| identifier := h; callbacks := callbacks b ++ [h] |}).

(** [cancelAnimationFrame(h)]: the callback under [h], if any, is removed. *)
Definition cancelAnimationFrame (h : nat) (b : t) : t :=
  {| identifier := identifier b;
     callbacks := remove Nat.eq_dec h (callbacks b) |}.

Record DOMPoint : Type := { x : R; y : R }.

(** What the code reads from an SVG path element. *)
Record SVGPathElement : Type :=
  { getTotalLength : R;
    getPointAtLength : R -> DOMPoint }.

(** What the code reads from [getBoundingClientRect()]. *)
Record DOMRect : Type :=
  { left : R;
    top : R;
    width : R;
    height : R }.

End Browser.

(** ** NurseAssessmentAnimation *)

Module NurseAssessmentAnimation.

Definition clamp01 (n : R) : R := Rmin 1 (Rmax 0 n).

Definition mapRange (v a b : R) : R :=
  if JS.leb v a then 0
  else if JS.geb v b then 1
  else (v - a) / (b - a).

(** [mapRange] with its division made partial: [None] is a zero divisor. *)
Definition checked_div (n d : R) : option R :=
  if Req_dec_T d 0 then None else Some (n / d).

Definition mapRange_checked (v a b : R) : option R :=
  if JS.leb v a then Some 0
  else if JS.geb v b then Some 1
  else checked_div (v - a) (b - a).

Definition easeInOutQuad (t : R) : R :=
  if JS.ltb t 0.5 then 2 * t * t else 1 - (-2 * t + 2) ^ 2 / 2.

(** *** The icons and the monitor cards *)

Inductive Icon : Type :=
| Img (src : option string) (alt : string)
| SvgNurseCap
| DefaultVitalsIcon
| DefaultPainIcon
| DefaultNotesIcon.

Definition NurseIcon (nurseIconUrl : option string) : Icon :=
  if JS.truthy nurseIconUrl then Img nurseIconUrl "Nurse" else SvgNurseCap.

Record MonitorCardProps : Type :=
  { title : string;
    visible : bool;
    icon : Icon;
    scale : option R }.

(** What [MonitorCard] shows: the title, whether the card is in its
    visible variant, and the scale it animates to. *)
Record MonitorCardView : Type :=
  { card_title : string;
    card_visible : bool;
    card_icon : Icon;
    card_scale : R }.

Definition MonitorCard (p : MonitorCardProps) : MonitorCardView :=
  let scale := JS.default 1 (scale p) in
  {| card_title := title p;
     card_visible := visible p;
     card_icon := icon p;
     card_scale := if visible p then 1 * scale else 0.98 * scale |}.

(** *** The file packet on the half-circle arc *)

Definition pathData : string := "M 10 40 A 155 155 0 0 1 320 40".
Definition viewW : R := 340.
Definition viewH : R := 80.

Record FileTransferView : Type :=
  { leftPct : R;
    topPct : R;
    img_src : option string }.

Section FileTransfer.

(** [document.createElementNS] followed by [setAttribute("d", _)]. *)
Variable createPath : string -> Browser.SVGPathElement.

Definition FileTransfer (progress : R) (fileIconUrl : option string)
  : option FileTransferView :=
  if negb (JS.truthy fileIconUrl) || JS.leb progress 0 || JS.gtb progress 1
  then None
  else
    let p := easeInOutQuad (clamp01 progress) in
    let path := createPath pathData in
    let L := Browser.getTotalLength path in
    let pt := Browser.getPointAtLength path (L * p) in
    let leftPct := Browser.x pt / viewW * 100 in
    let topPct := Browser.y pt / viewH * 100 in
    Some {| leftPct := leftPct; topPct := topPct; img_src := fileIconUrl |}.

End FileTransfer.

(** *** The animation-frame loop *)

Definition dur : R := 6000.

(** The updater handed to [setStep] by one tick. *)
Definition advance (dt speed s : R) : R :=
  let ns := s + (dt * speed) / dur in
  if JS.geb ns 1 then 1 else ns.

(** The component state read by the loop and the loop's own [last].  Every
    tick requests the next frame, so the loop is the sequence of its frame
    timestamps. *)
Record Loop : Type :=
  { isPlaying : bool;
    speed : R;
    step : R;
    last : R }.

Definition tick (now : R) (st : Loop) : Loop :=
  let dt := now - last st in
  {| isPlaying := isPlaying st;
     speed := speed st;
     step := if isPlaying st then advance dt (speed st) (step st) else step st;
     last := now |}.

(** The frames of a run, one timestamp each, oldest first. *)
Definition ticks (nows : list R) (st : Loop) : Loop :=
  fold_left (fun st now => tick now st) nows st.

(** Frame timestamps that never run backwards, starting from [t]. *)
Fixpoint nondecreasing_from (t : R) (nows : list R) : Prop :=
  match nows with
  | [] => True
  | now :: rest => t <= now /\ nondecreasing_from now rest
  end.

(** *** Timeline slices *)

Definition writeProg (step : R) : R := clamp01 (mapRange step 0.0 0.35).
Definition arrowProg (step : R) : R := clamp01 (mapRange step 0.35 0.55).
Definition fileProg (step : R) : R := clamp01 (mapRange step 0.35 0.80).

Definition showVitals (step : R) : bool := JS.geb step 0.6.
Definition showPain (step : R) : bool := JS.geb step 0.75.
Definition showNotes (step : R) : bool := JS.geb step 0.9.

(** The three cards on the monitor, top to bottom.  With a
    [computerIconUrl] they sit on the image with [scale={1.0}], without
    one inside [DefaultMonitor] with the scale omitted. *)
Definition monitor_cards (computerIconUrl : option string) (step : R)
  : list MonitorCardView :=
  let scale := if JS.truthy computerIconUrl then Some 1.0 else None in
  [ MonitorCard {| title := "Vitals"; visible := showVitals step;
                   icon := DefaultVitalsIcon; scale := scale |};
    MonitorCard {| title := "Pain Assessment"; visible := showPain step;
                   icon := DefaultPainIcon; scale := scale |};
    MonitorCard {| title := "Subjective Notes"; visible := showNotes step;
                   icon := DefaultNotesIcon; scale := scale |} ].

(** *** The scribble, the arrow and the stage between nurse and monitor *)

(** The widths, in percent, of the ten lines of the note. *)
Definition NurseScribble (progress : R) : list R :=
  JS.map_indexed
    (fun (_ : R) i =>
       let pct := Rmin 1 (Rmax 0 (progress * 1.2 - INR i * 0.08)) in
       pct * 100)
    (repeat 0 10).

Record ArrowView : Type :=
  { dash : R;
    dash_gap : R;
    markerEnd : option string }.

Definition ArrowToSystem (progress : R) : option ArrowView :=
  if JS.leb progress 0 then None
  else
    let length := 320 in
    let dash := Rmax 0.0001 (length * progress) in
    Some {| dash := dash;
            dash_gap := length;
            markerEnd := if JS.gtb progress 0.05 then Some "url(#arrowHead)"%string
                         else None |}.

(** The middle column of the stage: the arrow and the moving file. *)
Record Transfer : Type :=
  { arrow : option ArrowView;
    file : option FileTransferView }.

Definition transfer (createPath : string -> Browser.SVGPathElement)
  (step : R) (fileIconUrl : option string) : option Transfer :=
  if JS.gtb (arrowProg step) 0 || JS.gtb (fileProg step) 0
  then Some {| arrow := ArrowToSystem (arrowProg step);
               file := FileTransfer createPath (fileProg step) fileIconUrl |}
  else None.

(** *** The completion effect *)

(** The [firedComplete] state and the number of calls of [onComplete]. *)
Record Completion : Type :=
  { firedComplete : bool;
    completions : nat }.

(** The effect on [step], [firedComplete] and [onComplete], for a render
    with the given step; [onComplete] says whether the prop was passed. *)
Definition complete_effect (onComplete : bool) (step : R) (c : Completion) : Completion :=
  if negb (firedComplete c) && JS.geb step 1
  then {| firedComplete := true;
          completions := if onComplete then S (completions c) else completions c |}
  else c.

(** The effect over the steps of successive renders. *)
Definition complete_effects (onComplete : bool) (steps : list R) (c : Completion)
  : Completion :=
  fold_left (fun c step => complete_effect onComplete step c) steps c.

(** *** The loop in the browser *)

(** The browser, the effect's [raf] and the loop it drives. *)
Record World : Type :=
  { browser : Browser.t;
    raf : nat;
    loop : Loop }.

(** The effect body, run with [performance.now() = now] over the current
    component state. *)
Definition run_effect (now : R) (b : Browser.t) (playing : bool) (speed step : R)
  : World :=
  let (h, b') := Browser.requestAnimationFrame b in
  {| browser := b';
     raf := h;
     loop := {| isPlaying := playing; speed := speed; step := step; last := now |} |}.

(** The frame callback: one [tick], then the request for the next frame. *)
Definition frame_tick (now : R) (w : World) : World :=
  let l := tick now (loop w) in
  let (h, b') := Browser.requestAnimationFrame (browser w) in
  {| browser := b'; raf := h; loop := l |}.

Definition run_frame (now : R) (w : World) : World :=
  let waiting := Browser.callbacks (browser w) in
  let w0 := {| browser := {| Browser.identifier := Browser.identifier (browser w);
                             Browser.callbacks := [] |};
               raf := raf w;
               loop := loop w |} in
  fold_left (fun w _ => frame_tick now w) waiting w0.

Definition run_frames (nows : list R) (w : World) : World :=
  fold_left (fun w now => run_frame now w) nows w.

(** The cleanup function the effect returned. *)
Definition cleanup (w : World) : World :=
  {| browser := Browser.cancelAnimationFrame (raf w) (browser w);
     raf := raf w;
     loop := loop w |}.

End NurseAssessmentAnimation.

(** ** DoctorProcessAnimation *)

Module DoctorProcessAnimation.

Record Step : Type := { title : string }.

Record DoctorProcessAnimationProps : Type :=
  { doctorIconUrl : option string;
    computerIconUrl : option string;
    fileIconUrl : option string;
    steps : option (list Step);
    start : option bool;
    resetToken : option R;
    staggerMs : option R;
    disableFinalHandoff : option bool;
    clinicalNoteText : option string }.

(** The parameters bound by the component's destructuring pattern. *)
Record Bound : Type :=
  { b_doctorIconUrl : option string;
    b_computerIconUrl : option string;
    b_fileIconUrl : option string;
    b_steps : list Step;
    b_start : bool;
    b_resetToken : option R;
    b_staggerMs : R;
    b_disableFinalHandoff : bool;
    b_clinicalNoteText : string }.

Definition destructure (p : DoctorProcessAnimationProps) : Bound :=
  {| b_doctorIconUrl := doctorIconUrl p;
     b_computerIconUrl := computerIconUrl p;
     b_fileIconUrl := fileIconUrl p;
     b_steps :=
       JS.default
         [ {| title := "Lab Order" |};
           {| title := "Prescription Order" |};
           {| title := "Imaging Order" |};
           {| title := "Follow up" |};
           {| title := "Referral" |} ]
         (steps p);
     b_start := JS.default false (start p);
     b_resetToken := resetToken p;
     b_staggerMs := JS.default 750 (staggerMs p);
     b_disableFinalHandoff := JS.default false (disableFinalHandoff p);
     b_clinicalNoteText := JS.default "Clinical Note"%string (clinicalNoteText p) |}.

Definition perItemDelaySec (a : Bound) : R := b_staggerMs a / 2000.

Definition handoffDelaySec (a : Bound) : R :=
  INR (List.length (b_steps a)) * perItemDelaySec a + 0.2.

(** One entry of the Post Diagnosis list: its text and the delay of its
    spring transition, in seconds. *)
Record StepItem : Type :=
  { item_text : string;
    item_delay : R }.

Definition step_items (a : Bound) : list StepItem :=
  JS.map_indexed
    (fun s i => {| item_text := title s; item_delay := perItemDelaySec a * INR i |})
    (b_steps a).

(** Where the handoff file starts and ends, measured from the layout. *)
Record Coords : Type :=
  { startLeft : R; startTop : R; endLeft : R; endTop : R }.

Record Handoff : Type :=
  { handoff_src : option string;
    handoff_delay : R;
    handoff_duration : R }.

Definition handoff (a : Bound) (coords : option Coords) : option Handoff :=
  if negb (b_disableFinalHandoff a) && JS.truthy (b_fileIconUrl a)
  then match coords with
       | Some _ =>
           Some {| handoff_src := b_fileIconUrl a;
                   handoff_delay := handoffDelaySec a;
                   handoff_duration := 1.1 |}
       | None => None
       end
  else None.

(** The clinical note card on the monitor, shown unless the final handoff
    is disabled. *)
Record Note : Type :=
  { note_title : string;
    note_visible : bool }.

Record View : Type :=
  { view_items : list StepItem;
    view_note : option Note;
    view_handoff : option Handoff }.

(** The animated pane; [None] while [start] is false. *)
Definition render (p : DoctorProcessAnimationProps) (noteVisible : bool)
  (coords : option Coords) : option View :=
  let a := destructure p in
  if b_start a
  then Some {| view_items := step_items a;
               view_note :=
                 if negb (b_disableFinalHandoff a)
                 then Some {| note_title := b_clinicalNoteText a;
                              note_visible := noteVisible |}
                 else None;
               view_handoff := handoff a coords |}
  else None.

(** What the component returns: the outer container, which is always
    there and reserves the height, and the animated pane inside it. *)
Record Container : Type :=
  { className : string;
    pane : option View }.

Definition DoctorProcessAnimation (p : DoctorProcessAnimationProps)
  (noteVisible : bool) (coords : option Coords) : Container :=
  {| className := "w-full min-h-[420px]";
     pane := render p noteVisible coords |}.

(** *** Measuring the handoff *)

Definition fileHalf : R := 20.

(** [recomputeCoords] over the rectangles of the container, the doctor and
    the screen ([None] for a ref that is not attached) and the [coords]
    state: the state after the call. *)
Definition recomputeCoords (container doctor screen : option Browser.DOMRect)
  (coords : option Coords) : option Coords :=
  match container, doctor, screen with
  | Some cRect, Some dRect, Some sRect =>
      let dCx := Browser.left dRect + Browser.width dRect * 0.6 in
      let dCy := Browser.top dRect + Browser.height dRect * 0.45 in
      let sCx := Browser.left sRect + Browser.width sRect * 0.5 in
      let sCy := Browser.top sRect + Browser.height sRect * 0.5 in
      Some {| startLeft := dCx - Browser.left cRect - fileHalf;
              startTop := dCy - Browser.top cRect - fileHalf;
              endLeft := sCx - Browser.left cRect - fileHalf;
              endTop := sCy - Browser.top cRect - fileHalf |}
  | _, _, _ => coords
  end.

(** *** The run counter and the clinical note *)

Record State : Type :=
  { runId : nat;
    noteVisible : bool }.

(** The effect on [start], [resetToken] and [prevStart]. *)
Definition reset_effect (prevStart : bool) (a : Bound) (st : State) : State :=
  if (negb prevStart && b_start a) || JS.defined (b_resetToken a)
  then {| runId := runId st + 1; noteVisible := false |}
  else st.

(** What can happen to the state: the reset effect runs after a render
    whose previous [start] was [prevStart], or the handoff file, rendered
    with the given [coords], completes its animation. *)
Inductive Event : Type :=
| Effect (prevStart : bool)
| AnimationComplete (coords : option Coords).

(** [onAnimationComplete] belongs to the handoff file: without the file in
    the rendered tree there is nothing to complete. *)
Definition step (p : DoctorProcessAnimationProps) (st : State) (ev : Event) : State :=
  match ev with
  | Effect prevStart => reset_effect prevStart (destructure p) st
  | AnimationComplete coords =>
      match render p (noteVisible st) coords with
      | Some v =>
          match view_handoff v with
          | Some _ => {| runId := runId st; noteVisible := true |}
          | None => st
          end
      | None => st
      end
  end.

Definition run (p : DoctorProcessAnimationProps) (evs : list Event) (st : State) : State :=
  fold_left (step p) evs st.

End DoctorProcessAnimation.

(** ** CombinedAnimation *)

Module CombinedAnimation.

Record Point : Type := { x : R; y : R }.

Definition cubicBezierPoint (t x1 y1 cx1 cy1 cx2 cy2 x2 y2 : R) : Point :=
  let u := 1 - t in
  let tt := t * t in
  let uu := u * u in
  let uuu := uu * u in
  let ttt := tt * t in
  let x := uuu * x1 + 3 * uu * t * cx1 + 3 * u * tt * cx2 + ttt * x2 in
  let y := uuu * y1 + 3 * uu * t * cy1 + 3 * u * tt * cy2 + ttt * y2 in
  {| x := x; y := y |}.

Definition clamp01 (n : R) : R := Rmin 1 (Rmax 0 n).

Definition easeInOutCubic (t : R) : R :=
  if JS.ltb t 0.5 then 4 * t * t * t else 1 - (-2 * t + 2) ^ 3 / 2.

(** Where [BridgePath] puts the file for a given progress. *)
Definition BridgePath (progress : R) : Point :=
  let p := easeInOutCubic (clamp01 progress) in
  cubicBezierPoint p 900 (-20) 900 0 40 180 120 180.

(** *** The bridge effect and its animation-frame loop *)

(** The variables closed over by one run of the effect. *)
Record Effect : Type :=
  { cancelled : bool;
    raf : nat;
    t0 : R }.

(** The browser, the effect's closure (none when the effect returned
    before creating it) and the [bridgeProg] state. *)
Record World : Type :=
  { browser : Browser.t;
    effect : option Effect;
    bridgeProg : R }.

(** The progress one tick computes. *)
Definition progress (bridgeDurationMs t0 now : R) : R :=
  Rmin 1 ((now - t0) / bridgeDurationMs).

Section Bridge.

Variable bridgeDurationMs : R.

(** The effect body, run with [performance.now() = now]. *)
Definition run_effect (bridgeRun : nat) (now : R) (b : Browser.t) (prog : R) : World :=
  if (bridgeRun =? 0)%nat
  then {| browser := b; effect := None; bridgeProg := prog |}
  else
    let (h, b') := Browser.requestAnimationFrame b in
    {| browser := b';
       effect := Some {| cancelled := false; raf := h; t0 := now |};
       bridgeProg := prog |}.

Definition tick (now : R) (w : World) : World :=
  match effect w with
  | None => w
  | Some e =>
      if cancelled e then w
      else
        let p := progress bridgeDurationMs (t0 e) now in
        if JS.ltb p 1
        then
          let (h, b') := Browser.requestAnimationFrame (browser w) in
          {| browser := b';
             effect := Some {| cancelled := false; raf := h; t0 := t0 e |};
             bridgeProg := p |}
        else
          {| browser := browser w; effect := Some e; bridgeProg := p |}
  end.

(** The cleanup function the effect returned. *)
Definition cleanup (w : World) : World :=
  match effect w with
  | None => w
  | Some e =>
      {| browser :=
           if (raf e =? 0)%nat then browser w
           else Browser.cancelAnimationFrame (raf e) (browser w);
         effect := Some {| cancelled := true; raf := raf e; t0 := t0 e |};
         bridgeProg := bridgeProg w |}
  end.

(** A frame: the browser takes the waiting callbacks, empties the list
    and calls each with the frame's timestamp; a callback requested
    during the frame waits for the next one. *)
Definition run_frame (now : R) (w : World) : World :=
  let waiting := Browser.callbacks (browser w) in
  let w0 := {| browser := {| Browser.identifier := Browser.identifier (browser w);
                             Browser.callbacks := [] |};
               effect := effect w;
               bridgeProg := bridgeProg w |} in
  fold_left (fun w _ => tick now w) waiting w0.

Inductive Event : Type :=
| AnimationFrame (now : R)
| Cleanup.

Definition step (w : World) (ev : Event) : World :=
  match ev with
  | AnimationFrame now => run_frame now w
  | Cleanup => cleanup w
  end.

Definition run (evs : list Event) (w : World) : World :=
  fold_left step evs w.

(** The handles waiting for a frame. *)
Definition outstanding (w : World) : list nat :=
  Browser.callbacks (browser w).

End Bridge.

(** What holds of the world while the effect created at time [now0] is in
    place: no effect and nothing waiting, or an effect with a real handle in
    [raf] whose only possible waiting callback is the one under that handle,
    and then it has not been cancelled. *)
Definition loop_invariant (now0 : R) (w : World) : Prop :=
  match effect w with
  | None => outstanding w = []
  | Some e =>
      raf e <> 0%nat
      /\ t0 e = now0
      /\ (outstanding w = [] \/ (outstanding w = [raf e] /\ cancelled e = false))
  end.

(** *** The file on the bridge *)

Record BridgeFile : Type :=
  { leftPct : R;
    topPct : R;
    src : option string }.

(** The moving icon of [BridgePath], present only with a [fileIconUrl]. *)
Definition bridge_file (progress : R) (fileIconUrl : option string) : option BridgeFile :=
  let pt := BridgePath progress in
  if JS.truthy fileIconUrl
  then Some {| leftPct := x pt / 1000 * 100;
               topPct := y pt / 200 * 100;
               src := fileIconUrl |}
  else None.

(** *** The component state and what restarts the file *)

Record CombinedAnimationProps : Type :=
  { nurseIconUrl : option string;
    computerIconUrl : option string;
    fileIconUrl : option string;
    doctorIconUrl : option string;
    bottomSteps : option (list DoctorProcessAnimation.Step);
    bridgeDurationMs : option R;
    showPathDebug : option bool;
    externalRestartKey : option R }.

Module State.

Record t : Type :=
  { bridgeRun : nat;
    bridgeProg : R;
    bottomStartedOnce : bool }.

End State.

Definition initial : State.t :=
  {| State.bridgeRun := 0; State.bridgeProg := 0; State.bottomStartedOnce := false |}.

Definition triggerFileRun (s : State.t) : State.t :=
  {| State.bridgeRun := State.bridgeRun s + 1;
     State.bridgeProg := 0;
     State.bottomStartedOnce := State.bottomStartedOnce s |}.

Definition handleTopComplete (s : State.t) : State.t :=
  let s' := triggerFileRun s in
  if negb (State.bottomStartedOnce s)
  then {| State.bridgeRun := State.bridgeRun s';
          State.bridgeProg := State.bridgeProg s';
          State.bottomStartedOnce := true |}
  else s'.

(** The effect on [externalRestartKey]; it runs on mount and whenever the
    key changes. *)
Definition restart_effect (externalRestartKey : option R) (s : State.t) : State.t :=
  match externalRestartKey with
  | Some _ => triggerFileRun s
  | None => s
  end.

Inductive Action : Type :=
| TopComplete
| RestartKey (key : option R).

Definition act (s : State.t) (a : Action) : State.t :=
  match a with
  | TopComplete => handleTopComplete s
  | RestartKey key => restart_effect key s
  end.

Definition acts (l : list Action) (s : State.t) : State.t :=
  fold_left act l s.

(** The props handed to the bottom pane. *)
Definition doctor_props (p : CombinedAnimationProps) (s : State.t)
  : DoctorProcessAnimation.DoctorProcessAnimationProps :=
  {| DoctorProcessAnimation.doctorIconUrl := doctorIconUrl p;
     DoctorProcessAnimation.computerIconUrl := computerIconUrl p;
     DoctorProcessAnimation.fileIconUrl := fileIconUrl p;
     DoctorProcessAnimation.steps := bottomSteps p;
     DoctorProcessAnimation.start := Some (State.bottomStartedOnce s);
     DoctorProcessAnimation.resetToken := None;
     DoctorProcessAnimation.staggerMs := None;
     DoctorProcessAnimation.disableFinalHandoff := None;
     DoctorProcessAnimation.clinicalNoteText := None |}.

End CombinedAnimation.

(** ** The step delays in binary64 *)

Module Binary64.

Definition MAX_VALUE : float := 0x1.fffffffffffffp+1023%float.

(** The array index [i] as a number. *)
Definition index (i : nat) : float :=
  PrimFloat.of_uint63 (Uint63.of_Z (Z.of_nat i)).

Definition perItemDelaySec (staggerMs : float) : float :=
  (staggerMs / 2000)%float.

#[warnings="-inexact-float"]
Definition handoffDelaySec (staggerMs : float) (steps : list DoctorProcessAnimation.Step)
  : float :=
  (index (List.length steps) * perItemDelaySec staggerMs + 0.2)%float.


End Binary64.

(** ** Inputs for the examples *)

Module Sample.

(** The geometry SVG gives to [pathData]: a half circle of radius 155
    around (165, 40), from (10, 40) over the top to (320, 40). *)
Definition half_circle : Browser.SVGPathElement :=
  {| Browser.getTotalLength := 155 * PI;
     Browser.getPointAtLength := fun s =>
       {| Browser.x := 165 - 155 * cos (s / 155);
          Browser.y := 40 - 155 * sin (s / 155) |} |}.

Definition createPath (d : string) : Browser.SVGPathElement := half_circle.

(** A browser that has handed out no handle yet. *)
Definition fresh : Browser.t :=
  {| Browser.identifier := 0; Browser.callbacks := [] |}.

(** The loop of a freshly mounted NurseAssessmentAnimation. *)
Definition mounted : NurseAssessmentAnimation.Loop :=
  {| NurseAssessmentAnimation.isPlaying := true;
     NurseAssessmentAnimation.speed := 1;
     NurseAssessmentAnimation.step := 0;
     NurseAssessmentAnimation.last := 0 |}.

(** The same loop once the step has reached 1, 6000 ms later. *)
Definition completed : NurseAssessmentAnimation.Loop :=
  {| NurseAssessmentAnimation.isPlaying := true;
     NurseAssessmentAnimation.speed := 1;
     NurseAssessmentAnimation.step := 1;
     NurseAssessmentAnimation.last := 6000 |}.

(** DoctorProcessAnimation with every prop omitted. *)
Definition no_props : DoctorProcessAnimation.DoctorProcessAnimationProps :=
  {| DoctorProcessAnimation.doctorIconUrl := None;
     DoctorProcessAnimation.computerIconUrl := None;
     DoctorProcessAnimation.fileIconUrl := None;
     DoctorProcessAnimation.steps := None;
     DoctorProcessAnimation.start := None;
     DoctorProcessAnimation.resetToken := None;
     DoctorProcessAnimation.staggerMs := None;
     DoctorProcessAnimation.disableFinalHandoff := None;
     DoctorProcessAnimation.clinicalNoteText := None |}.

(** DoctorProcessAnimation started, with a file icon and nothing else. *)
Definition with_file : DoctorProcessAnimation.DoctorProcessAnimationProps :=
  {| DoctorProcessAnimation.doctorIconUrl := None;
     DoctorProcessAnimation.computerIconUrl := None;
     DoctorProcessAnimation.fileIconUrl := Some "/icons/file-icon.png"%string;
     DoctorProcessAnimation.steps := None;
     DoctorProcessAnimation.start := Some true;
     DoctorProcessAnimation.resetToken := None;
     DoctorProcessAnimation.staggerMs := None;
     DoctorProcessAnimation.disableFinalHandoff := None;
     DoctorProcessAnimation.clinicalNoteText := None |}.



End Sample.

(** Case analysis on every comparison in sight. *)
Ltac js_cases :=
  unfold JS.leb, JS.ltb, JS.geb, JS.gtb in *;
  repeat match goal with
         | |- context [Rle_dec ?a ?b] => destruct (Rle_dec a b)
         | |- context [Rlt_dec ?a ?b] => destruct (Rlt_dec a b)
         | |- context [Rge_dec ?a ?b] => destruct (Rge_dec a b)
         | |- context [Rgt_dec ?a ?b] => destruct (Rgt_dec a b)
         | H : context [Rle_dec ?a ?b] |- _ => destruct (Rle_dec a b)
         | H : context [Rlt_dec ?a ?b] |- _ => destruct (Rlt_dec a b)
         | H : context [Rge_dec ?a ?b] |- _ => destruct (Rge_dec a b)
         | H : context [Rgt_dec ?a ?b] |- _ => destruct (Rgt_dec a b)
         end.

(** * Properties *)

(** ** Conditions on numbers *)

Lemma leb_true (x y : R) : JS.leb x y = true <-> x <= y.
Proof. unfold JS.leb. destruct (Rle_dec x y); split; intros; try discriminate; tauto. Qed.

Lemma ltb_true (x y : R) : JS.ltb x y = true <-> x < y.
Proof. unfold JS.ltb. destruct (Rlt_dec x y); split; intros; try discriminate; tauto. Qed.

Lemma geb_true (x y : R) : JS.geb x y = true <-> x >= y.
Proof. unfold JS.geb. destruct (Rge_dec x y); split; intros; try discriminate; tauto. Qed.

Lemma gtb_true (x y : R) : JS.gtb x y = true <-> x > y.
Proof. unfold JS.gtb. destruct (Rgt_dec x y); split; intros; try discriminate; tauto. Qed.

Lemma truthy_false (s : option string) :
  JS.truthy s = false <-> s = None \/ s = Some EmptyString.
Proof.
  destruct s as [u|]; simpl.
  - rewrite negb_false_iff, String.eqb_eq. split.
    + intros ->. now right.
    + intros [H|H]; [discriminate | now injection H].
  - split; auto.
Qed.

Lemma truthy_true (s : option string) :
  JS.truthy s = true <-> exists u, s = Some u /\ u <> EmptyString.
Proof.
  destruct s as [u|]; simpl.
  - rewrite negb_true_iff, String.eqb_neq. split.
    + intros H. now exists u.
    + intros (v & E & H). now injection E as ->.
  - split; [discriminate | intros (v & E & _); discriminate].
Qed.

(** ** A quotient of a part by the whole *)

Lemma div_unit (n d : R) : 0 < d -> 0 <= n <= d -> 0 <= n / d <= 1.
Proof.
  intros Hd [H0 H1]. pose proof (Rinv_0_lt_compat d Hd) as Hi.
  unfold Rdiv. split.
  - apply Rmult_le_pos; lra.
  - apply (Rmult_le_reg_r d); [exact Hd|].
    rewrite Rmult_assoc, Rinv_l; lra.
Qed.

Lemma div_mono (n m d : R) : 0 < d -> n <= m -> n / d <= m / d.
Proof.
  intros Hd H. pose proof (Rinv_0_lt_compat d Hd) as Hi.
  unfold Rdiv. apply Rmult_le_compat_r; lra.
Qed.

(** ** clamp01 and mapRange *)

Section Clamp.

(** Both copies of [clamp01] are this function. *)
Variable clamp : R -> R.
Hypothesis clamp_def : forall n, clamp n = Rmin 1 (Rmax 0 n).

Lemma clamp_range (n : R) : 0 <= clamp n <= 1.
Proof. rewrite clamp_def. unfold Rmin, Rmax. repeat destruct (Rle_dec _ _); lra. Qed.

Lemma clamp_id (n : R) : 0 <= n <= 1 -> clamp n = n.
Proof. intros H. rewrite clamp_def. unfold Rmin, Rmax. repeat destruct (Rle_dec _ _); lra. Qed.

Lemma clamp_idem (n : R) : clamp (clamp n) = clamp n.
Proof. apply clamp_id, clamp_range. Qed.

Lemma clamp_low (n : R) : n <= 0 -> clamp n = 0.
Proof. intros H. rewrite clamp_def. unfold Rmin, Rmax. repeat destruct (Rle_dec _ _); lra. Qed.

Lemma clamp_high (n : R) : 1 <= n -> clamp n = 1.
Proof. intros H. rewrite clamp_def. unfold Rmin, Rmax. repeat destruct (Rle_dec _ _); lra. Qed.

Lemma clamp_mono (n m : R) : n <= m -> clamp n <= clamp m.
Proof. intros H. rewrite !clamp_def. unfold Rmin, Rmax. repeat destruct (Rle_dec _ _); lra. Qed.

End Clamp.

Lemma nurse_clamp01_def (n : R) : NurseAssessmentAnimation.clamp01 n = Rmin 1 (Rmax 0 n).
Proof. reflexivity. Qed.

Lemma combined_clamp01_def (n : R) : CombinedAnimation.clamp01 n = Rmin 1 (Rmax 0 n).
Proof. reflexivity. Qed.

Section MapRange.

Import NurseAssessmentAnimation.

Lemma mapRange_below (v a b : R) : v <= a -> mapRange v a b = 0.
Proof. intros H. unfold mapRange. js_cases; lra. Qed.

Lemma mapRange_above (v a b : R) : a < b -> b <= v -> mapRange v a b = 1.
Proof. intros Hab H. unfold mapRange. js_cases; lra. Qed.

Lemma mapRange_inside (v a b : R) : a < v < b -> mapRange v a b = (v - a) / (b - a).
Proof. intros H. unfold mapRange. js_cases; lra. Qed.

Lemma mapRange_range (v a b : R) : a < b -> 0 <= mapRange v a b <= 1.
Proof.
  intros Hab. unfold mapRange. js_cases; try lra.
  apply div_unit; lra.
Qed.

Lemma mapRange_mono (v w a b : R) : a < b -> v <= w -> mapRange v a b <= mapRange w a b.
Proof.
  intros Hab Hvw.
  destruct (Rle_lt_dec v a) as [Hva|Hva].
  { rewrite (mapRange_below v) by assumption. now apply mapRange_range. }
  destruct (Rle_lt_dec b w) as [Hbw|Hbw].
  { rewrite (mapRange_above w) by assumption. now apply mapRange_range. }
  rewrite !mapRange_inside by lra. apply div_mono; lra.
Qed.

(** What the division branch of [mapRange] knows about its operands. *)
Lemma mapRange_guard (v a b : R) :
  JS.leb v a = false -> JS.geb v b = false -> a < v < b /\ 0 < b - a.
Proof. intros H1 H2. js_cases; try discriminate. lra. Qed.

Lemma mapRange_checked_total (v a b : R) :
  mapRange_checked v a b = Some (mapRange v a b).
Proof.
  unfold mapRange_checked, mapRange.
  destruct (JS.leb v a) eqn:E1; [reflexivity|].
  destruct (JS.geb v b) eqn:E2; [reflexivity|].
  destruct (mapRange_guard v a b E1 E2) as [_ Hd].
  unfold checked_div. destruct (Req_dec_T (b - a) 0); [lra | reflexivity].
Qed.

(** A timeline slice: [clamp01 (mapRange step a b)]. *)
Lemma slice_range (s a b : R) : 0 <= clamp01 (mapRange s a b) <= 1.
Proof. apply (clamp_range clamp01 nurse_clamp01_def). Qed.

Lemma slice_mono (s s' a b : R) :
  a < b -> s <= s' -> clamp01 (mapRange s a b) <= clamp01 (mapRange s' a b).
Proof.
  intros Hab H. apply (clamp_mono clamp01 nurse_clamp01_def). now apply mapRange_mono.
Qed.

Lemma slice_start (s a b : R) : s <= a -> clamp01 (mapRange s a b) = 0.
Proof.
  intros H. rewrite mapRange_below by assumption.
  apply (clamp_id clamp01 nurse_clamp01_def). lra.
Qed.

Lemma slice_end (s a b : R) : a < b -> b <= s -> clamp01 (mapRange s a b) = 1.
Proof.
  intros Hab H. rewrite mapRange_above by assumption.
  apply (clamp_id clamp01 nurse_clamp01_def). lra.
Qed.

End MapRange.

(** ** The helpers of the timeline *)

(** C9: [clamp01] returns a value in [0,1] for every real input, is the
    identity on inputs already in [0,1], and is idempotent; this holds for
    the copy in NurseAssessmentAnimation and for the copy in
    CombinedAnimation. *)
Theorem clamp01_unit_interval (n : R) :
  (0 <= NurseAssessmentAnimation.clamp01 n <= 1
   /\ (0 <= n <= 1 -> NurseAssessmentAnimation.clamp01 n = n)
   /\ NurseAssessmentAnimation.clamp01 (NurseAssessmentAnimation.clamp01 n)
      = NurseAssessmentAnimation.clamp01 n)
  /\
  (0 <= CombinedAnimation.clamp01 n <= 1
   /\ (0 <= n <= 1 -> CombinedAnimation.clamp01 n = n)
   /\ CombinedAnimation.clamp01 (CombinedAnimation.clamp01 n)
      = CombinedAnimation.clamp01 n).
Proof.
  split; (split; [|split]).
  - apply (clamp_range _ nurse_clamp01_def).
  - apply (clamp_id _ nurse_clamp01_def).
  - apply (clamp_idem _ nurse_clamp01_def).
  - apply (clamp_range _ combined_clamp01_def).
  - apply (clamp_id _ combined_clamp01_def).
  - apply (clamp_idem _ combined_clamp01_def).
Qed.

(** The identity part of C9 at 1/4, for both copies. *)
Lemma clamp01_unit_interval_witness :
  NurseAssessmentAnimation.clamp01 (1 / 4) = 1 / 4
  /\ CombinedAnimation.clamp01 (1 / 4) = 1 / 4.
Proof.
  destruct (clamp01_unit_interval (1 / 4)) as [(_ & Hn & _) (_ & Hc & _)].
  split; [apply Hn | apply Hc]; lra.
Defined.

(** C8: [mapRange] never divides by zero: whatever [v], [a] and [b] are, the
    division is reached only with [a < v < b], where the divisor [b - a] is
    positive, so the checked variant always returns the value; and for
    [a < b] the result lies in [0,1], is nondecreasing in [v], is 0 for
    [v <= a] and 1 for [v >= b]. *)
Theorem mapRange_safe_and_bounded (v a b : R) :
  NurseAssessmentAnimation.mapRange_checked v a b
    = Some (NurseAssessmentAnimation.mapRange v a b)
  /\ (JS.leb v a = false -> JS.geb v b = false ->
      NurseAssessmentAnimation.mapRange v a b = (v - a) / (b - a)
      /\ a < v < b /\ 0 < b - a)
  /\ (a < b ->
      0 <= NurseAssessmentAnimation.mapRange v a b <= 1
      /\ (forall w, v <= w ->
            NurseAssessmentAnimation.mapRange v a b
              <= NurseAssessmentAnimation.mapRange w a b)
      /\ (v <= a -> NurseAssessmentAnimation.mapRange v a b = 0)
      /\ (v >= b -> NurseAssessmentAnimation.mapRange v a b = 1)).
Proof.
  split; [apply mapRange_checked_total|]. split.
  - intros H1 H2. split; [|now apply mapRange_guard].
    unfold NurseAssessmentAnimation.mapRange. now rewrite H1, H2.
  - intros Hab. repeat split.
    + now apply mapRange_range.
    + now apply mapRange_range.
    + intros w Hw. now apply mapRange_mono.
    + apply mapRange_below.
    + intros H. apply mapRange_above; lra.
Qed.

(** C8 at [v = 1/2] in the window from 0.35 to 0.55: the division branch is
    the one taken and the result stays in [0,1]. *)
Lemma mapRange_safe_and_bounded_witness :
  (NurseAssessmentAnimation.mapRange (1 / 2) 0.35 0.55 = (1 / 2 - 0.35) / (0.55 - 0.35)
   /\ 0.35 < 1 / 2 < 0.55 /\ 0 < 0.55 - 0.35)
  /\ 0 <= NurseAssessmentAnimation.mapRange (1 / 2) 0.35 0.55 <= 1.
Proof.
  destruct (mapRange_safe_and_bounded (1 / 2) 0.35 0.55) as (_ & Hdiv & Hin).
  split.
  - apply Hdiv.
    + unfold JS.leb. destruct (Rle_dec (1 / 2) 0.35); [lra | reflexivity].
    + unfold JS.geb. destruct (Rge_dec (1 / 2) 0.55); [lra | reflexivity].
  - apply Hin. lra.
Defined.

(** C2: the timeline slices [writeProg], [arrowProg] and [fileProg] lie in
    [0,1] for every real step, are nondecreasing in the step, are 0 for a
    step at or below the start of their window (0, 0.35, 0.35) and 1 from
    the end of their window onward (0.35, 0.55, 0.80). *)
Theorem timeline_slices (step : R) :
  (0 <= NurseAssessmentAnimation.writeProg step <= 1
   /\ (forall step', step <= step' ->
         NurseAssessmentAnimation.writeProg step
           <= NurseAssessmentAnimation.writeProg step')
   /\ (step <= 0 -> NurseAssessmentAnimation.writeProg step = 0)
   /\ (step >= 0.35 -> NurseAssessmentAnimation.writeProg step = 1))
  /\
  (0 <= NurseAssessmentAnimation.arrowProg step <= 1
   /\ (forall step', step <= step' ->
         NurseAssessmentAnimation.arrowProg step
           <= NurseAssessmentAnimation.arrowProg step')
   /\ (step <= 0.35 -> NurseAssessmentAnimation.arrowProg step = 0)
   /\ (step >= 0.55 -> NurseAssessmentAnimation.arrowProg step = 1))
  /\
  (0 <= NurseAssessmentAnimation.fileProg step <= 1
   /\ (forall step', step <= step' ->
         NurseAssessmentAnimation.fileProg step
           <= NurseAssessmentAnimation.fileProg step')
   /\ (step <= 0.35 -> NurseAssessmentAnimation.fileProg step = 0)
   /\ (step >= 0.80 -> NurseAssessmentAnimation.fileProg step = 1)).
Proof.
  unfold NurseAssessmentAnimation.writeProg, NurseAssessmentAnimation.arrowProg,
    NurseAssessmentAnimation.fileProg.
  repeat match goal with |- _ /\ _ => split end;
    try (intros step' H; apply slice_mono; lra);
    try (intros H; apply slice_start; lra);
    try (intros H; apply slice_end; lra);
    apply slice_range.
Qed.

(** C2 at the ends of the windows: nothing is written at step 0, and at
    step 0.8 the note is written, the arrow drawn and the file delivered. *)
Lemma timeline_slices_witness :
  NurseAssessmentAnimation.writeProg 0 = 0
  /\ NurseAssessmentAnimation.writeProg 0.8 = 1
  /\ NurseAssessmentAnimation.arrowProg 0.8 = 1
  /\ NurseAssessmentAnimation.fileProg 0.8 = 1.
Proof.
  destruct (timeline_slices 0) as ((_ & _ & W0 & _) & _).
  destruct (timeline_slices 0.8) as ((_ & _ & _ & W1) & (_ & _ & _ & A1) & (_ & _ & _ & F1)).
  repeat split; [apply W0 | apply W1 | apply A1 | apply F1]; lra.
Defined.

(** ** NurseAssessmentAnimation: the monitor cards and the loop *)

(** C3: for every step the monitor shows the cards Vitals, Pain Assessment
    and Subjective Notes in this order, visible from steps 0.6, 0.75 and 0.9
    on; whenever Subjective Notes is visible so is Pain Assessment, and
    whenever Pain Assessment is visible so is Vitals. *)
Theorem monitor_cards_order (computerIconUrl : option string) (step : R) :
  map NurseAssessmentAnimation.card_title
      (NurseAssessmentAnimation.monitor_cards computerIconUrl step)
    = [ "Vitals"; "Pain Assessment"; "Subjective Notes" ]%string
  /\ map NurseAssessmentAnimation.card_visible
         (NurseAssessmentAnimation.monitor_cards computerIconUrl step)
     = [ NurseAssessmentAnimation.showVitals step;
         NurseAssessmentAnimation.showPain step;
         NurseAssessmentAnimation.showNotes step ]
  /\ (NurseAssessmentAnimation.showVitals step = true <-> step >= 0.6)
  /\ (NurseAssessmentAnimation.showPain step = true <-> step >= 0.75)
  /\ (NurseAssessmentAnimation.showNotes step = true <-> step >= 0.9)
  /\ (NurseAssessmentAnimation.showNotes step = true ->
      NurseAssessmentAnimation.showPain step = true)
  /\ (NurseAssessmentAnimation.showPain step = true ->
      NurseAssessmentAnimation.showVitals step = true).
Proof.
  unfold NurseAssessmentAnimation.showVitals, NurseAssessmentAnimation.showPain,
    NurseAssessmentAnimation.showNotes.
  repeat split; try (apply geb_true; assumption); try (apply geb_true in H; assumption).
  - intros H. apply geb_true in H. apply geb_true. lra.
  - intros H. apply geb_true in H. apply geb_true. lra.
Qed.

(** C3 at step 0.95, where all three cards are visible. *)
Lemma monitor_cards_order_witness :
  NurseAssessmentAnimation.showNotes 0.95 = true
  /\ NurseAssessmentAnimation.showPain 0.95 = true
  /\ NurseAssessmentAnimation.showVitals 0.95 = true.
Proof.
  destruct (monitor_cards_order None 0.95) as (_ & _ & _ & _ & N & NP & PV).
  assert (HN : NurseAssessmentAnimation.showNotes 0.95 = true) by (apply N; lra).
  split; [exact HN | split; [exact (NP HN) | exact (PV (NP HN))]].
Defined.

Section Loop.

Import NurseAssessmentAnimation.

Lemma advance_cap (dt speed s : R) :
  advance dt speed s = Rmin 1 (s + (dt * speed) / 6000).
Proof.
  unfold advance, dur, Rmin. js_cases; lra.
Qed.

Lemma advance_grows (dt speed s : R) :
  0 <= dt -> 0 <= speed -> 0 <= s <= 1 ->
  0 <= advance dt speed s <= 1 /\ s <= advance dt speed s.
Proof.
  intros Hdt Hsp Hs.
  assert (0 <= dt * speed / 6000).
  { apply Rmult_le_pos; [apply Rmult_le_pos; assumption | lra]. }
  unfold advance, dur. js_cases; lra.
Qed.

Lemma tick_grows (now : R) (st : Loop) :
  0 <= speed st -> last st <= now -> 0 <= step st <= 1 ->
  0 <= step (tick now st) <= 1 /\ step st <= step (tick now st).
Proof.
  intros Hsp Hnow Hs. unfold tick; simpl.
  destruct (isPlaying st); [apply advance_grows; lra | lra].
Qed.

Lemma tick_keeps (now : R) (st : Loop) :
  isPlaying (tick now st) = isPlaying st
  /\ speed (tick now st) = speed st
  /\ last (tick now st) = now.
Proof. repeat split. Qed.

(** Over any run of frames the step stays in [0,1] and never decreases. *)
Lemma ticks_grow (nows : list R) :
  forall st : Loop,
    0 <= speed st -> nondecreasing_from (last st) nows -> 0 <= step st <= 1 ->
    0 <= step (ticks nows st) <= 1 /\ step st <= step (ticks nows st).
Proof.
  induction nows as [|now rest IH]; intros st Hsp Hfr Hs; simpl.
  - lra.
  - destruct Hfr as [Hnow Hrest].
    destruct (tick_grows now st Hsp Hnow Hs) as [Hs' Hle].
    destruct (IH (tick now st)) as [Hr Hle']; simpl; try assumption.
    unfold ticks in *. simpl. lra.
Qed.

Lemma ticks_stay_complete (nows : list R) (st : Loop) :
  0 <= speed st -> nondecreasing_from (last st) nows -> step st = 1 ->
  step (ticks nows st) = 1.
Proof.
  intros Hsp Hfr H1.
  destruct (ticks_grow nows st Hsp Hfr) as [Hr Hle]; lra.
Qed.

End Loop.

(** C1: in the animation-frame loop, for every tick with elapsed time
    [now - last >= 0] and speed [>= 0], if the step before the tick lies in
    [0,1] then the updated step, which is [step + (dt * speed) / 6000]
    capped at 1, lies in [0,1] and is at least the previous step; once the
    step is 1 it is 1 after every further run of such ticks. *)
Theorem nurse_step_invariant (now : R) (st : NurseAssessmentAnimation.Loop) :
  0 <= NurseAssessmentAnimation.speed st ->
  NurseAssessmentAnimation.last st <= now ->
  0 <= NurseAssessmentAnimation.step st <= 1 ->
  NurseAssessmentAnimation.step (NurseAssessmentAnimation.tick now st)
    = (if NurseAssessmentAnimation.isPlaying st
       then Rmin 1 (NurseAssessmentAnimation.step st
                    + ((now - NurseAssessmentAnimation.last st)
                       * NurseAssessmentAnimation.speed st) / 6000)
       else NurseAssessmentAnimation.step st)
  /\ 0 <= NurseAssessmentAnimation.step (NurseAssessmentAnimation.tick now st) <= 1
  /\ NurseAssessmentAnimation.step st
     <= NurseAssessmentAnimation.step (NurseAssessmentAnimation.tick now st)
  /\ (NurseAssessmentAnimation.step st = 1 ->
      forall nows,
        NurseAssessmentAnimation.nondecreasing_from
          (NurseAssessmentAnimation.last st) nows ->
        NurseAssessmentAnimation.step (NurseAssessmentAnimation.ticks nows st) = 1).
Proof.
  intros Hsp Hnow Hs.
  destruct (tick_grows now st Hsp Hnow Hs) as [Hr Hle].
  repeat split; try lra.
  - simpl. destruct (NurseAssessmentAnimation.isPlaying st); [apply advance_cap | reflexivity].
  - intros H1 nows Hfr. now apply ticks_stay_complete.
Qed.

(** C1 on a freshly mounted loop: a frame 3000 ms after mount moves the
    step from 0 to 1/2; and once the step is 1, two more frames leave it 1. *)
Lemma nurse_step_invariant_witness :
  (NurseAssessmentAnimation.step (NurseAssessmentAnimation.tick 3000 Sample.mounted)
     = Rmin 1 (0 + ((3000 - 0) * 1) / 6000)
   /\ 0 <= NurseAssessmentAnimation.step (NurseAssessmentAnimation.tick 3000 Sample.mounted) <= 1)
  /\ NurseAssessmentAnimation.step
       (NurseAssessmentAnimation.ticks [6016; 6033] Sample.completed) = 1.
Proof.
  split.
  - assert (H : 0 <= NurseAssessmentAnimation.speed Sample.mounted
                /\ NurseAssessmentAnimation.last Sample.mounted <= 3000
                /\ 0 <= NurseAssessmentAnimation.step Sample.mounted <= 1)
      by (simpl; lra).
    destruct H as (Hsp & Hnow & Hs).
    destruct (nurse_step_invariant 3000 Sample.mounted Hsp Hnow Hs) as (E & R01 & _).
    split; [exact E | exact R01].
  - assert (H : 0 <= NurseAssessmentAnimation.speed Sample.completed
                /\ NurseAssessmentAnimation.last Sample.completed <= 6016
                /\ 0 <= NurseAssessmentAnimation.step Sample.completed <= 1)
      by (simpl; lra).
    destruct H as (Hsp & Hnow & Hs).
    destruct (nurse_step_invariant 6016 Sample.completed Hsp Hnow Hs) as (_ & _ & _ & Stay).
    apply Stay; [reflexivity | simpl; lra].
Defined.

(** ** DoctorProcessAnimation: defaults and delays *)

Section Delays.

Import DoctorProcessAnimation.

Lemma map_from_nth {A B : Type} (f : A -> nat -> B) (l : list A) :
  forall k i, nth_error (JS.map_from f k l) i
              = option_map (fun a => f a (k + i)%nat) (nth_error l i).
Proof.
  induction l as [|a l IH]; intros k i.
  - destruct i; reflexivity.
  - destruct i as [|i]; simpl.
    + now rewrite Nat.add_0_r.
    + rewrite IH. now rewrite Nat.add_succ_r.
Qed.




End Delays.





(** C6: an omitted optional prop takes its built-in fallback:
    DoctorProcessAnimation binds [steps] to the five entries Lab Order,
    Prescription Order, Imaging Order, Follow up, Referral, [start] to
    false, [staggerMs] to 750, [disableFinalHandoff] to false and
    [clinicalNoteText] to "Clinical Note"; NurseAssessmentAnimation without a
    [nurseIconUrl] uses the built-in SvgNurseCap icon, not an img element. *)
Theorem omitted_props_fall_back (p : DoctorProcessAnimation.DoctorProcessAnimationProps) :
  (DoctorProcessAnimation.steps p = None ->
   map DoctorProcessAnimation.title
       (DoctorProcessAnimation.b_steps (DoctorProcessAnimation.destructure p))
   = [ "Lab Order"; "Prescription Order"; "Imaging Order"; "Follow up"; "Referral" ]%string)
  /\ (DoctorProcessAnimation.start p = None ->
      DoctorProcessAnimation.b_start (DoctorProcessAnimation.destructure p) = false)
  /\ (DoctorProcessAnimation.staggerMs p = None ->
      DoctorProcessAnimation.b_staggerMs (DoctorProcessAnimation.destructure p) = 750)
  /\ (DoctorProcessAnimation.disableFinalHandoff p = None ->
      DoctorProcessAnimation.b_disableFinalHandoff (DoctorProcessAnimation.destructure p)
      = false)
  /\ (DoctorProcessAnimation.clinicalNoteText p = None ->
      DoctorProcessAnimation.b_clinicalNoteText (DoctorProcessAnimation.destructure p)
      = "Clinical Note"%string)
  /\ NurseAssessmentAnimation.NurseIcon None = NurseAssessmentAnimation.SvgNurseCap.
Proof.
  unfold DoctorProcessAnimation.destructure; simpl.
  repeat split; intros ->; reflexivity.
Qed.

(** C6 with every prop omitted. *)
Lemma omitted_props_fall_back_witness :
  map DoctorProcessAnimation.title
      (DoctorProcessAnimation.b_steps (DoctorProcessAnimation.destructure Sample.no_props))
  = [ "Lab Order"; "Prescription Order"; "Imaging Order"; "Follow up"; "Referral" ]%string
  /\ DoctorProcessAnimation.b_start (DoctorProcessAnimation.destructure Sample.no_props) = false
  /\ DoctorProcessAnimation.b_staggerMs (DoctorProcessAnimation.destructure Sample.no_props) = 750
  /\ DoctorProcessAnimation.b_disableFinalHandoff
       (DoctorProcessAnimation.destructure Sample.no_props) = false
  /\ DoctorProcessAnimation.b_clinicalNoteText
       (DoctorProcessAnimation.destructure Sample.no_props) = "Clinical Note"%string.
Proof.
  destruct (omitted_props_fall_back Sample.no_props) as (S1 & S2 & S3 & S4 & S5 & _).
  exact (conj (S1 eq_refl) (conj (S2 eq_refl) (conj (S3 eq_refl)
           (conj (S4 eq_refl) (S5 eq_refl))))).
Defined.

(** ** NurseAssessmentAnimation: the file packet *)

Lemma easeInOutQuad_unit (t : R) :
  0 <= t <= 1 -> 0 <= NurseAssessmentAnimation.easeInOutQuad t <= 1.
Proof.
  intros Ht. unfold NurseAssessmentAnimation.easeInOutQuad. simpl.
  js_cases; nra.
Qed.

Lemma FileTransfer_null (createPath : string -> Browser.SVGPathElement)
  (progress : R) (fileIconUrl : option string) :
  NurseAssessmentAnimation.FileTransfer createPath progress fileIconUrl = None
  <-> (JS.truthy fileIconUrl = false \/ progress <= 0 \/ progress > 1).
Proof.
  unfold NurseAssessmentAnimation.FileTransfer.
  destruct (JS.truthy fileIconUrl); simpl.
  - destruct (JS.leb progress 0) eqn:E1; simpl.
    + apply leb_true in E1. tauto.
    + destruct (JS.gtb progress 1) eqn:E2.
      * apply gtb_true in E2. tauto.
      * split; [discriminate|].
        intros [H|[H|H]]; [discriminate | |].
        -- apply leb_true in H. congruence.
        -- apply gtb_true in H. congruence.
  - tauto.
Qed.

(** C5, the claim as stated, fails: with the empty string as [fileIconUrl]
    and progress 1/2 nothing is rendered, although the URL is defined and
    the progress lies in (0,1]. *)
Lemma FileTransfer_empty_url_counterexample :
  NurseAssessmentAnimation.FileTransfer Sample.createPath (1 / 2) (Some EmptyString) = None
  /\ ~ (Some EmptyString = @None string \/ 1 / 2 <= 0 \/ 1 / 2 > 1).
Proof.
  split; [reflexivity|].
  intros [H|[H|H]]; [discriminate | lra | lra].
Qed.

(** C5, amended: FileTransfer renders nothing if and only if [fileIconUrl]
    is undefined or the empty string, or [progress <= 0], or [progress > 1];
    for every non-empty [fileIconUrl] and every progress with
    [0 < progress <= 1] it renders the file icon at the point of the arc at
    length [L * easeInOutQuad (clamp01 progress)], an eased parameter that
    lies in [0,1]. *)
Theorem FileTransfer_render (createPath : string -> Browser.SVGPathElement)
  (progress : R) (fileIconUrl : option string) :
  (NurseAssessmentAnimation.FileTransfer createPath progress fileIconUrl = None
   <-> (fileIconUrl = None \/ fileIconUrl = Some EmptyString
        \/ progress <= 0 \/ progress > 1))
  /\ (forall url,
        fileIconUrl = Some url -> url <> EmptyString -> 0 < progress <= 1 ->
        0 <= NurseAssessmentAnimation.easeInOutQuad
               (NurseAssessmentAnimation.clamp01 progress) <= 1
        /\ NurseAssessmentAnimation.FileTransfer createPath progress fileIconUrl
           = Some
               {| NurseAssessmentAnimation.leftPct :=
                    Browser.x
                      (Browser.getPointAtLength
                         (createPath NurseAssessmentAnimation.pathData)
                         (Browser.getTotalLength
                            (createPath NurseAssessmentAnimation.pathData)
                          * NurseAssessmentAnimation.easeInOutQuad
                              (NurseAssessmentAnimation.clamp01 progress)))
                    / 340 * 100;
                  NurseAssessmentAnimation.topPct :=
                    Browser.y
                      (Browser.getPointAtLength
                         (createPath NurseAssessmentAnimation.pathData)
                         (Browser.getTotalLength
                            (createPath NurseAssessmentAnimation.pathData)
                          * NurseAssessmentAnimation.easeInOutQuad
                              (NurseAssessmentAnimation.clamp01 progress)))
                    / 80 * 100;
                  NurseAssessmentAnimation.img_src := Some url |}).
Proof.
  split.
  - rewrite FileTransfer_null, truthy_false. tauto.
  - intros url -> Hurl Hp. split.
    + apply easeInOutQuad_unit, (clamp_range _ nurse_clamp01_def).
    + unfold NurseAssessmentAnimation.FileTransfer.
      assert (T : JS.truthy (Some url) = true) by (apply truthy_true; now exists url).
      assert (L : JS.leb progress 0 = false).
      { destruct (JS.leb progress 0) eqn:E; [apply leb_true in E; lra | reflexivity]. }
      assert (G : JS.gtb progress 1 = false).
      { destruct (JS.gtb progress 1) eqn:E; [apply gtb_true in E; lra | reflexivity]. }
      rewrite T, L, G. reflexivity.
Qed.

(** C5 amended, at a file icon URL and progress 1/2 on the half circle. *)
Lemma FileTransfer_render_witness :
  exists v,
    NurseAssessmentAnimation.FileTransfer Sample.createPath (1 / 2)
      (Some "/icons/file-icon.png"%string) = Some v
    /\ NurseAssessmentAnimation.img_src v = Some "/icons/file-icon.png"%string.
Proof.
  destruct (FileTransfer_render Sample.createPath (1 / 2)
              (Some "/icons/file-icon.png"%string)) as [_ H].
  destruct (H "/icons/file-icon.png"%string eq_refl) as [_ E].
  - discriminate.
  - lra.
  - eexists. split; [exact E | reflexivity].
Defined.

(** ** CombinedAnimation: the bridge *)

(** C10: [cubicBezierPoint] interpolates its endpoints exactly: for all
    control points, at [t = 0] it returns [(x1, y1)] and at [t = 1] it
    returns [(x2, y2)]. *)
Theorem cubicBezierPoint_endpoints (x1 y1 cx1 cy1 cx2 cy2 x2 y2 : R) :
  CombinedAnimation.cubicBezierPoint 0 x1 y1 cx1 cy1 cx2 cy2 x2 y2
    = {| CombinedAnimation.x := x1; CombinedAnimation.y := y1 |}
  /\ CombinedAnimation.cubicBezierPoint 1 x1 y1 cx1 cy1 cx2 cy2 x2 y2
     = {| CombinedAnimation.x := x2; CombinedAnimation.y := y2 |}.
Proof.
  unfold CombinedAnimation.cubicBezierPoint. split; f_equal; ring.
Qed.

(** The file starts at the top monitor and ends at the bottom start icon. *)
Lemma BridgePath_ends (progress : R) :
  (progress <= 0 ->
   CombinedAnimation.BridgePath progress
   = {| CombinedAnimation.x := 900; CombinedAnimation.y := -20 |})
  /\ (1 <= progress ->
      CombinedAnimation.BridgePath progress
      = {| CombinedAnimation.x := 120; CombinedAnimation.y := 180 |}).
Proof.
  unfold CombinedAnimation.BridgePath. split; intros H.
  - assert (E : CombinedAnimation.easeInOutCubic (CombinedAnimation.clamp01 progress) = 0).
    { rewrite (clamp_low _ combined_clamp01_def) by assumption.
      unfold CombinedAnimation.easeInOutCubic. js_cases; simpl; lra. }
    rewrite E. unfold CombinedAnimation.cubicBezierPoint. f_equal; ring.
  - assert (E : CombinedAnimation.easeInOutCubic (CombinedAnimation.clamp01 progress) = 1).
    { rewrite (clamp_high _ combined_clamp01_def) by assumption.
      unfold CombinedAnimation.easeInOutCubic. js_cases; simpl; lra. }
    rewrite E. unfold CombinedAnimation.cubicBezierPoint. f_equal; ring.
Qed.

Section BridgeLoop.

Import CombinedAnimation.

Variable bridgeDurationMs : R.

Lemma progress_unit (start now : R) :
  0 < bridgeDurationMs -> start <= now ->
  0 <= progress bridgeDurationMs start now <= 1.
Proof.
  intros Hd Hnow. unfold progress, Rmin.
  assert (0 <= (now - start) / bridgeDurationMs).
  { unfold Rdiv. apply Rmult_le_pos; [lra|]. left. now apply Rinv_0_lt_compat. }
  destruct (Rle_dec _ _); lra.
Qed.

Lemma progress_mono (start now now' : R) :
  0 < bridgeDurationMs -> now <= now' ->
  progress bridgeDurationMs start now <= progress bridgeDurationMs start now'.
Proof.
  intros Hd Hnow. unfold progress.
  assert ((now - start) / bridgeDurationMs <= (now' - start) / bridgeDurationMs)
    by (apply div_mono; lra).
  unfold Rmin. repeat destruct (Rle_dec _ _); lra.
Qed.

Lemma run_effect_invariant (bridgeRun : nat) (now0 : R) (b : Browser.t) (prog : R) :
  Browser.callbacks b = [] ->
  loop_invariant now0 (run_effect bridgeRun now0 b prog).
Proof.
  intros Hb. unfold run_effect, loop_invariant, outstanding.
  destruct (bridgeRun =? 0)%nat; simpl.
  - exact Hb.
  - rewrite Hb. simpl. repeat split; [discriminate | right; split; reflexivity].
Qed.

Lemma run_effect_unmounted (now0 : R) (b : Browser.t) (prog : R) :
  Browser.callbacks b = [] ->
  outstanding (run_effect 0 now0 b prog) = [].
Proof. intros Hb. exact Hb. Qed.

(** A frame with nothing waiting calls nothing. *)
Lemma run_frame_quiet (now : R) (w : World) :
  outstanding w = [] ->
  outstanding (run_frame bridgeDurationMs now w) = []
  /\ effect (run_frame bridgeDurationMs now w) = effect w
  /\ bridgeProg (run_frame bridgeDurationMs now w) = bridgeProg w.
Proof.
  unfold outstanding, run_frame. intros ->. simpl. repeat split.
Qed.

(** A frame with the live callback waiting runs one tick. *)
Lemma run_frame_live (now : R) (w : World) (e : Effect) :
  effect w = Some e -> outstanding w = [raf e] -> cancelled e = false ->
  bridgeProg (run_frame bridgeDurationMs now w) = progress bridgeDurationMs (t0 e) now
  /\ (progress bridgeDurationMs (t0 e) now < 1 ->
      outstanding (run_frame bridgeDurationMs now w)
        = [S (Browser.identifier (browser w))]
      /\ effect (run_frame bridgeDurationMs now w)
         = Some {| cancelled := false;
                   raf := S (Browser.identifier (browser w));
                   t0 := t0 e |})
  /\ (~ progress bridgeDurationMs (t0 e) now < 1 ->
      outstanding (run_frame bridgeDurationMs now w) = []
      /\ effect (run_frame bridgeDurationMs now w) = Some e).
Proof.
  unfold outstanding, run_frame. intros He -> Hc. simpl.
  unfold tick; simpl. rewrite He, Hc.
  destruct (JS.ltb (progress bridgeDurationMs (t0 e) now) 1) eqn:E; simpl.
  - apply ltb_true in E. repeat split; tauto.
  - assert (~ progress bridgeDurationMs (t0 e) now < 1).
    { intros H. apply ltb_true in H. congruence. }
    repeat split; tauto.
Qed.

Lemma cleanup_quiet (now0 : R) (w : World) :
  loop_invariant now0 w ->
  outstanding (cleanup w) = []
  /\ match effect (cleanup w) with
     | Some e => cancelled e = true
     | None => effect w = None
     end.
Proof.
  unfold loop_invariant, cleanup, outstanding.
  destruct (effect w) as [e|] eqn:He; simpl; [|now rewrite He].
  intros (Hraf & _ & Hout).
  apply Nat.eqb_neq in Hraf. rewrite Hraf. simpl.
  split; [|reflexivity].
  destruct Hout as [-> | [-> _]]; simpl; [reflexivity|].
  destruct (Nat.eq_dec (raf e) (raf e)); [reflexivity | contradiction].
Qed.

Lemma step_invariant (now0 : R) (w : World) (ev : Event) :
  loop_invariant now0 w -> loop_invariant now0 (step bridgeDurationMs w ev).
Proof.
  intros Hinv. destruct ev as [now|]; simpl.
  - unfold loop_invariant in *.
    destruct (effect w) as [e|] eqn:He.
    + destruct Hinv as (Hraf & Ht0 & [Hq | [Hl Hc]]).
      * destruct (run_frame_quiet now w Hq) as (Hq' & He' & _).
        rewrite He', He. auto.
      * destruct (run_frame_live now w e He Hl Hc) as (_ & Hlt & Hge).
        destruct (Rlt_dec (progress bridgeDurationMs (t0 e) now) 1) as [H|H].
        -- destruct (Hlt H) as [Ho Hf]. rewrite Hf; simpl.
           repeat split; [discriminate | assumption | right; split; [exact Ho | reflexivity]].
        -- destruct (Hge H) as [Ho Hf]. rewrite Hf. auto.
    + destruct (run_frame_quiet now w Hinv) as (Hq' & He' & _).
      rewrite He', He. exact Hq'.
  - destruct (cleanup_quiet now0 w Hinv) as [Hq _].
    unfold loop_invariant in *. unfold cleanup in *.
    destruct (effect w) as [e|] eqn:He; simpl in *; [|now rewrite He].
    destruct Hinv as (Hraf & Ht0 & _). auto.
Qed.

Lemma run_invariant (now0 : R) (evs : list Event) :
  forall w, loop_invariant now0 w -> loop_invariant now0 (run bridgeDurationMs evs w).
Proof.
  induction evs as [|ev evs IH]; intros w Hinv; simpl; [assumption|].
  apply IH. now apply step_invariant.
Qed.

Lemma invariant_at_most_one (now0 : R) (w : World) :
  loop_invariant now0 w -> (List.length (outstanding w) <= 1)%nat.
Proof.
  unfold loop_invariant. destruct (effect w) as [e|].
  - intros (_ & _ & [-> | [-> _]]); simpl; lia.
  - intros ->. simpl. lia.
Qed.

(** With nothing waiting, nothing is ever requested again. *)
Lemma step_quiet (w : World) (ev : Event) :
  outstanding w = [] -> outstanding (step bridgeDurationMs w ev) = [].
Proof.
  intros Hq. destruct ev as [now|]; simpl.
  - now apply run_frame_quiet.
  - unfold cleanup, outstanding in *. destruct (effect w) as [e|]; simpl; [|assumption].
    destruct (raf e =? 0)%nat; simpl; [assumption | now rewrite Hq].
Qed.

Lemma run_quiet (evs : list Event) :
  forall w, outstanding w = [] -> outstanding (run bridgeDurationMs evs w) = [].
Proof.
  induction evs as [|ev evs IH]; intros w Hq; simpl; [assumption|].
  apply IH. now apply step_quiet.
Qed.

Lemma run_app (evs evs' : list Event) (w : World) :
  run bridgeDurationMs (evs ++ evs') w
  = run bridgeDurationMs evs' (run bridgeDurationMs evs w).
Proof. apply fold_left_app. Qed.

(** The frame that fires the live callback, read off the invariant. *)
Lemma frame_of_live_loop (now0 now : R) (w : World) :
  loop_invariant now0 w -> outstanding w <> [] ->
  bridgeProg (run_frame bridgeDurationMs now w) = progress bridgeDurationMs now0 now
  /\ (outstanding (run_frame bridgeDurationMs now w) <> []
      <-> progress bridgeDurationMs now0 now < 1).
Proof.
  unfold loop_invariant. intros Hinv Hne.
  destruct (effect w) as [e|] eqn:He; [|contradiction].
  destruct Hinv as (_ & <- & [Hq | [Hl Hc]]); [contradiction|].
  destruct (run_frame_live now w e He Hl Hc) as (Hp & Hlt & Hge).
  split; [exact Hp|]. split.
  - intros Hout. destruct (Rlt_dec (progress bridgeDurationMs (t0 e) now) 1) as [H|H];
      [exact H|]. destruct (Hge H) as [Ho _]. contradiction.
  - intros H. destruct (Hlt H) as [Ho _]. rewrite Ho. discriminate.
Qed.

End BridgeLoop.

(** C7: in the bridge loop, for every [bridgeDurationMs > 0] and every frame
    time [now >= t0] the progress [min(1, (now - t0) / bridgeDurationMs)]
    lies in [0,1], and it is nondecreasing in [now].  From the effect on,
    through any frames and cleanups, at most one frame request is
    outstanding; a frame that fires the callback sets [bridgeProg] to the
    progress and leaves a request outstanding exactly when the progress is
    below 1; once a frame computes progress 1 nothing is outstanding ever
    after; the cleanup leaves nothing outstanding ever after; and with
    [bridgeRun = 0] the effect requests nothing. *)
Theorem bridge_frame_loop (bridgeDurationMs : R) :
  0 < bridgeDurationMs ->
  (forall t0 now, t0 <= now ->
     0 <= CombinedAnimation.progress bridgeDurationMs t0 now <= 1)
  /\ (forall t0 now now', now <= now' ->
        CombinedAnimation.progress bridgeDurationMs t0 now
          <= CombinedAnimation.progress bridgeDurationMs t0 now')
  /\ (forall bridgeRun now0 b prog evs,
        Browser.callbacks b = [] ->
        (List.length
           (CombinedAnimation.outstanding
              (CombinedAnimation.run bridgeDurationMs evs
                 (CombinedAnimation.run_effect bridgeRun now0 b prog))) <= 1)%nat
        /\ (forall now,
              CombinedAnimation.outstanding
                (CombinedAnimation.run bridgeDurationMs evs
                   (CombinedAnimation.run_effect bridgeRun now0 b prog)) <> [] ->
              CombinedAnimation.bridgeProg
                (CombinedAnimation.run bridgeDurationMs
                   (evs ++ [CombinedAnimation.AnimationFrame now])
                   (CombinedAnimation.run_effect bridgeRun now0 b prog))
                = CombinedAnimation.progress bridgeDurationMs now0 now
              /\ (CombinedAnimation.outstanding
                    (CombinedAnimation.run bridgeDurationMs
                       (evs ++ [CombinedAnimation.AnimationFrame now])
                       (CombinedAnimation.run_effect bridgeRun now0 b prog)) <> []
                  <-> CombinedAnimation.progress bridgeDurationMs now0 now < 1)
              /\ (CombinedAnimation.progress bridgeDurationMs now0 now = 1 ->
                  forall evs',
                    CombinedAnimation.outstanding
                      (CombinedAnimation.run bridgeDurationMs
                         (evs ++ CombinedAnimation.AnimationFrame now :: evs')
                         (CombinedAnimation.run_effect bridgeRun now0 b prog)) = []))
        /\ (forall evs',
              CombinedAnimation.outstanding
                (CombinedAnimation.run bridgeDurationMs
                   (evs ++ CombinedAnimation.Cleanup :: evs')
                   (CombinedAnimation.run_effect bridgeRun now0 b prog)) = [])
        /\ (bridgeRun = 0%nat ->
            CombinedAnimation.outstanding
              (CombinedAnimation.run bridgeDurationMs evs
                 (CombinedAnimation.run_effect bridgeRun now0 b prog)) = [])).
Proof.
  intros Hd. split; [|split].
  - intros t0 now H. now apply progress_unit.
  - intros t0 now now' H. now apply progress_mono.
  - intros bridgeRun now0 b prog evs Hb.
    pose proof (run_invariant bridgeDurationMs now0 evs _
                  (run_effect_invariant bridgeRun now0 b prog Hb)) as Hinv.
    split; [|split; [|split]].
    + exact (invariant_at_most_one now0 _ Hinv).
    + intros now Hlive.
      destruct (frame_of_live_loop bridgeDurationMs now0 now _ Hinv Hlive) as [Hp Hiff].
      rewrite run_app. simpl. split; [exact Hp | split; [exact Hiff|]].
      intros H1 evs'. rewrite run_app. simpl. apply run_quiet.
      destruct (list_eq_dec Nat.eq_dec
                  (CombinedAnimation.outstanding
                     (CombinedAnimation.run_frame bridgeDurationMs now
                        (CombinedAnimation.run bridgeDurationMs evs
                           (CombinedAnimation.run_effect bridgeRun now0 b prog)))) [])
        as [E|E]; [exact E|].
      apply Hiff in E. lra.
    + intros evs'. rewrite run_app. simpl. apply run_quiet.
      now apply (cleanup_quiet now0).
    + intros ->. apply run_quiet. now apply run_effect_unmounted.
Qed.

(** C7 for the default duration of 1200 ms in a fresh browser: after the
    effect at most one request is outstanding, the frame at 600 ms sets the
    progress to [progress 1200 0 600] and requests again, after the frame at
    1200 ms nothing is outstanding, and a cleanup after the first frame
    leaves nothing outstanding either. *)
Lemma bridge_frame_loop_witness :
  0 <= CombinedAnimation.progress 1200 0 600 <= 1
  /\ (List.length
        (CombinedAnimation.outstanding
           (CombinedAnimation.run 1200 []
              (CombinedAnimation.run_effect 1 0 Sample.fresh 0))) <= 1)%nat
  /\ CombinedAnimation.outstanding
       (CombinedAnimation.run 1200
          ([] ++ [CombinedAnimation.AnimationFrame 600])
          (CombinedAnimation.run_effect 1 0 Sample.fresh 0)) <> []
  /\ CombinedAnimation.outstanding
       (CombinedAnimation.run 1200
          (([] ++ [CombinedAnimation.AnimationFrame 600])
           ++ CombinedAnimation.AnimationFrame 1200 :: [])
          (CombinedAnimation.run_effect 1 0 Sample.fresh 0)) = []
  /\ CombinedAnimation.outstanding
       (CombinedAnimation.run 1200
          (([] ++ [CombinedAnimation.AnimationFrame 600]) ++ CombinedAnimation.Cleanup :: [])
          (CombinedAnimation.run_effect 1 0 Sample.fresh 0)) = [].
Proof.
  assert (Hd : 0 < 1200) by lra.
  destruct (bridge_frame_loop 1200 Hd) as (Hunit & _ & Hloop).
  split; [apply Hunit; lra|].
  destruct (Hloop 1%nat 0 Sample.fresh 0 [] eq_refl) as (Hone & Hframe & _ & _).
  split; [exact Hone|].
  assert (Hlive : CombinedAnimation.outstanding
                    (CombinedAnimation.run 1200 []
                       (CombinedAnimation.run_effect 1 0 Sample.fresh 0)) <> [])
    by discriminate.
  destruct (Hframe 600 Hlive) as (_ & Hiff & _).
  assert (Hhalf : CombinedAnimation.progress 1200 0 600 < 1).
  { unfold CombinedAnimation.progress, Rmin. destruct (Rle_dec _ _); lra. }
  apply Hiff in Hhalf.
  split; [exact Hhalf|].
  destruct (Hloop 1%nat 0 Sample.fresh 0 ([] ++ [CombinedAnimation.AnimationFrame 600]) eq_refl)
    as (_ & Hframe' & Hclean & _).
  split; [|exact (Hclean [])].
  destruct (Hframe' 1200 Hhalf) as (_ & _ & Hstop).
  apply Hstop.
  unfold CombinedAnimation.progress, Rmin. destruct (Rle_dec _ _); lra.
Defined.

(** * Further properties of the components *)

(** ** The easing curves *)

Lemma cube_mono (a b : R) : a <= b -> a * a * a <= b * b * b.
Proof.
  intros H.
  assert (0 <= (b - a) * (a * a + a * b + b * b)).
  { apply Rmult_le_pos; [lra|]. nra. }
  nra.
Qed.

(** X1: [easeInOutQuad] fixes 0 and 1, and on [0,1] it is nondecreasing
    with values in [0,1]. *)
Theorem easeInOutQuad_shape (t : R) :
  NurseAssessmentAnimation.easeInOutQuad 0 = 0
  /\ NurseAssessmentAnimation.easeInOutQuad 1 = 1
  /\ (0 <= t <= 1 -> 0 <= NurseAssessmentAnimation.easeInOutQuad t <= 1)
  /\ (forall u, 0 <= t -> t <= u -> u <= 1 ->
        NurseAssessmentAnimation.easeInOutQuad t
          <= NurseAssessmentAnimation.easeInOutQuad u).
Proof.
  unfold NurseAssessmentAnimation.easeInOutQuad. simpl.
  split; [js_cases; lra|]. split; [js_cases; lra|].
  split; [intros H; js_cases; nra|].
  intros u H0 Htu Hu. js_cases; nra.
Qed.

(** X1 at a quarter and three quarters of the way. *)
Lemma easeInOutQuad_shape_witness :
  0 <= NurseAssessmentAnimation.easeInOutQuad (1 / 4) <= 1
  /\ NurseAssessmentAnimation.easeInOutQuad (1 / 4)
     <= NurseAssessmentAnimation.easeInOutQuad (3 / 4).
Proof.
  destruct (easeInOutQuad_shape (1 / 4)) as (_ & _ & Hr & Hm).
  split; [apply Hr; lra | apply Hm; lra].
Defined.

Lemma easeInOutCubic_ends :
  CombinedAnimation.easeInOutCubic 0 = 0 /\ CombinedAnimation.easeInOutCubic 1 = 1.
Proof. unfold CombinedAnimation.easeInOutCubic; simpl; split; js_cases; lra. Qed.

Lemma easeInOutCubic_mono (a b : R) :
  a <= b -> CombinedAnimation.easeInOutCubic a <= CombinedAnimation.easeInOutCubic b.
Proof.
  intros Hab. unfold CombinedAnimation.easeInOutCubic. simpl.
  pose proof (cube_mono a b Hab) as C1.
  assert (C2 : (-2 * b + 2) * (-2 * b + 2) * (-2 * b + 2)
               <= (-2 * a + 2) * (-2 * a + 2) * (-2 * a + 2))
    by (apply cube_mono; lra).
  js_cases; try lra.
  pose proof (cube_mono a (1 / 2)) as C3.
  pose proof (cube_mono (-2 * b + 2) 1) as C4. lra.
Qed.

Lemma easeInOutCubic_unit (t : R) :
  0 <= t <= 1 -> 0 <= CombinedAnimation.easeInOutCubic t <= 1.
Proof.
  intros [H0 H1]. destruct easeInOutCubic_ends as [E0 E1].
  pose proof (easeInOutCubic_mono 0 t H0) as L.
  pose proof (easeInOutCubic_mono t 1 H1) as U.
  rewrite E0 in L. rewrite E1 in U. lra.
Qed.

(** X2: [easeInOutCubic] fixes 0 and 1, is nondecreasing on all reals, and
    maps [0,1] into [0,1]. *)
Theorem easeInOutCubic_shape (t : R) :
  CombinedAnimation.easeInOutCubic 0 = 0
  /\ CombinedAnimation.easeInOutCubic 1 = 1
  /\ (forall u, t <= u ->
        CombinedAnimation.easeInOutCubic t <= CombinedAnimation.easeInOutCubic u)
  /\ (0 <= t <= 1 -> 0 <= CombinedAnimation.easeInOutCubic t <= 1).
Proof.
  destruct easeInOutCubic_ends as [E0 E1].
  split; [exact E0|]. split; [exact E1|]. split.
  - intros u. apply easeInOutCubic_mono.
  - apply easeInOutCubic_unit.
Qed.

(** X2 at a quarter and three quarters of the way. *)
Lemma easeInOutCubic_shape_witness :
  CombinedAnimation.easeInOutCubic (1 / 4) <= CombinedAnimation.easeInOutCubic (3 / 4)
  /\ 0 <= CombinedAnimation.easeInOutCubic (1 / 4) <= 1.
Proof.
  destruct (easeInOutCubic_shape (1 / 4)) as (_ & _ & Hm & Hr).
  split; [apply Hm; lra | apply Hr; lra].
Defined.

(** ** The bridge curve *)

(** X4: [BridgePath] draws the file only for a non-empty [fileIconUrl],
    with that URL as its source; the file sits at (90%, -10%) of the
    bridge for progress at or below 0 and at (12%, 90%) for progress at or
    above 1. *)
Theorem bridge_file_position (progress : R) (fileIconUrl : option string) :
  (CombinedAnimation.bridge_file progress fileIconUrl = None
   <-> fileIconUrl = None \/ fileIconUrl = Some EmptyString)
  /\ (forall v,
        CombinedAnimation.bridge_file progress fileIconUrl = Some v ->
        CombinedAnimation.src v = fileIconUrl
        /\ (progress <= 0 ->
            CombinedAnimation.leftPct v = 90 /\ CombinedAnimation.topPct v = -10)
        /\ (1 <= progress ->
            CombinedAnimation.leftPct v = 12 /\ CombinedAnimation.topPct v = 90)).
Proof.
  unfold CombinedAnimation.bridge_file. split.
  - rewrite <- truthy_false. destruct (JS.truthy fileIconUrl); split;
      intros H; try discriminate; reflexivity.
  - intros v. destruct (JS.truthy fileIconUrl); [|discriminate].
    pose proof (BridgePath_ends progress) as [Hstart Hend].
    cbv zeta. remember (CombinedAnimation.BridgePath progress) as pt eqn:Ept.
    intros H. injection H as <-.
    cbn [CombinedAnimation.leftPct CombinedAnimation.topPct CombinedAnimation.src].
    split; [reflexivity|]. split.
    + intros H. rewrite (Hstart H). simpl. lra.
    + intros H. rewrite (Hend H). simpl. lra.
Qed.

(** X4 at progress 1 with a file icon: the file has arrived. *)
Lemma bridge_file_position_witness :
  exists v,
    CombinedAnimation.bridge_file 1 (Some "/icons/file-icon.png"%string) = Some v
    /\ CombinedAnimation.leftPct v = 12 /\ CombinedAnimation.topPct v = 90.
Proof.
  destruct (bridge_file_position 1 (Some "/icons/file-icon.png"%string)) as [_ H].
  eexists. split; [reflexivity|].
  destruct (H _ eq_refl) as (_ & _ & Hend).
  apply Hend. lra.
Defined.

(** ** NurseAssessmentAnimation: the note, the arrow and the stage *)

Lemma NurseScribble_nth (progress : R) (i : nat) (w : R) :
  nth_error (NurseAssessmentAnimation.NurseScribble progress) i = Some w ->
  (i < 10)%nat /\ w = Rmin 1 (Rmax 0 (progress * 1.2 - INR i * 0.08)) * 100.
Proof.
  unfold NurseAssessmentAnimation.NurseScribble, JS.map_indexed.
  rewrite map_from_nth. intros H.
  destruct (nth_error (repeat 0 10) i) as [z|] eqn:E; [|discriminate].
  split.
  - assert (Hlen : (i < List.length (repeat 0%R 10))%nat)
      by (apply nth_error_Some; congruence).
    rewrite repeat_length in Hlen. exact Hlen.
  - simpl in H. now injection H as <-.
Qed.

(** X5: the note has ten lines, each with a width between 0% and 100%;
    lower lines are never wider than the lines above them, no line shrinks
    as the progress grows, all lines are empty for progress at or below 0,
    and for progress up to 1 the lines from the fourth on are never full,
    while at progress 1 and beyond the first three are. *)
Theorem NurseScribble_lines (progress : R) :
  List.length (NurseAssessmentAnimation.NurseScribble progress) = 10%nat
  /\ (forall i w,
        nth_error (NurseAssessmentAnimation.NurseScribble progress) i = Some w ->
        0 <= w <= 100
        /\ (progress <= 0 -> w = 0)
        /\ (progress <= 1 -> (3 <= i)%nat -> w < 100)
        /\ (1 <= progress -> (i <= 2)%nat -> w = 100)
        /\ (forall j w',
              (i <= j)%nat ->
              nth_error (NurseAssessmentAnimation.NurseScribble progress) j = Some w' ->
              w' <= w)
        /\ (forall q w',
              progress <= q ->
              nth_error (NurseAssessmentAnimation.NurseScribble q) i = Some w' ->
              w <= w')).
Proof.
  split; [reflexivity|].
  intros i w H. apply NurseScribble_nth in H. destruct H as [Hi ->].
  pose proof (pos_INR i) as Hpos.
  split; [|split; [|split; [|split; [|split]]]].
  - unfold Rmin, Rmax. repeat destruct (Rle_dec _ _); lra.
  - intros Hp. unfold Rmin, Rmax. repeat destruct (Rle_dec _ _); lra.
  - intros Hp H3. apply le_INR in H3. simpl in H3.
    unfold Rmin, Rmax. repeat destruct (Rle_dec _ _); lra.
  - intros Hp H2. apply le_INR in H2. simpl in H2.
    unfold Rmin, Rmax. repeat destruct (Rle_dec _ _); lra.
  - intros j w' Hij H'. apply NurseScribble_nth in H'. destruct H' as [_ ->].
    apply le_INR in Hij.
    unfold Rmin, Rmax. repeat destruct (Rle_dec _ _); lra.
  - intros q w' Hq H'. apply NurseScribble_nth in H'. destruct H' as [_ ->].
    unfold Rmin, Rmax. repeat destruct (Rle_dec _ _); lra.
Qed.

(** X6: the arrow is rendered exactly for a progress above 0; its dash is
    then at least 0.0001 and equal to [320 * progress] once that is at
    least 0.0001, never longer than the 320 of the line for progress up to
    1, and the arrow head is attached exactly for a progress above 0.05. *)
Theorem ArrowToSystem_dash (progress : R) :
  (NurseAssessmentAnimation.ArrowToSystem progress = None <-> progress <= 0)
  /\ (forall v,
        NurseAssessmentAnimation.ArrowToSystem progress = Some v ->
        0.0001 <= NurseAssessmentAnimation.dash v
        /\ NurseAssessmentAnimation.dash_gap v = 320
        /\ (0.0001 <= 320 * progress ->
            NurseAssessmentAnimation.dash v = 320 * progress)
        /\ (progress <= 1 -> NurseAssessmentAnimation.dash v <= 320)
        /\ (NurseAssessmentAnimation.markerEnd v = None <-> progress <= 0.05)).
Proof.
  unfold NurseAssessmentAnimation.ArrowToSystem. split.
  - destruct (JS.leb progress 0) eqn:E.
    + apply leb_true in E. tauto.
    + split; [discriminate|]. intros H. apply leb_true in H. congruence.
  - intros v. destruct (JS.leb progress 0) eqn:E; [discriminate|].
    intros H. injection H as <-. simpl.
    split; [|split; [reflexivity|split; [|split]]].
    + unfold Rmax. destruct (Rle_dec _ _); lra.
    + intros Hp. unfold Rmax. destruct (Rle_dec _ _); lra.
    + intros Hp. unfold Rmax. destruct (Rle_dec _ _); lra.
    + destruct (JS.gtb progress 0.05) eqn:G.
      * apply gtb_true in G. split; [discriminate | lra].
      * split; [|reflexivity]. intros _.
        destruct (Rle_lt_dec progress 0.05) as [H|H]; [exact H|].
        apply Rlt_gt, gtb_true in H. congruence.
Qed.

(** X6 at a progress of 1/2: a dash of 160 with the arrow head. *)
Lemma ArrowToSystem_dash_witness :
  exists v,
    NurseAssessmentAnimation.ArrowToSystem (1 / 2) = Some v
    /\ NurseAssessmentAnimation.dash v = 320 * (1 / 2)
    /\ NurseAssessmentAnimation.dash v <= 320.
Proof.
  destruct (ArrowToSystem_dash (1 / 2)) as [Hnull Hv].
  destruct (NurseAssessmentAnimation.ArrowToSystem (1 / 2)) as [v|] eqn:E.
  - exists v. destruct (Hv v eq_refl) as (_ & _ & Hd & Hle & _).
    split; [reflexivity | split; [apply Hd | apply Hle]]; lra.
  - exfalso. assert (H : 1 / 2 <= 0) by (apply Hnull; reflexivity). lra.
Defined.

Section Stage.

Import NurseAssessmentAnimation.

Lemma slice_inside (s a b : R) :
  a < s < b -> clamp01 (mapRange s a b) = (s - a) / (b - a).
Proof.
  intros H. rewrite mapRange_inside by assumption.
  apply (clamp_id clamp01 nurse_clamp01_def). apply div_unit; lra.
Qed.

Lemma slice_positive (s a b : R) :
  a < b -> (clamp01 (mapRange s a b) > 0 <-> s > a).
Proof.
  intros Hab. split.
  - intros H. destruct (Rle_lt_dec s a) as [Hle|Hlt]; [|lra].
    rewrite slice_start in H by assumption. lra.
  - intros H. destruct (Rle_lt_dec b s) as [Hbs|Hsb].
    + rewrite slice_end by assumption. lra.
    + rewrite slice_inside by lra.
      unfold Rdiv. apply Rmult_lt_0_compat; [lra|]. apply Rinv_0_lt_compat. lra.
Qed.

Lemma fileProg_behind_arrowProg (step : R) : fileProg step <= arrowProg step.
Proof.
  unfold fileProg, arrowProg.
  destruct (Rle_lt_dec step 0.35) as [H1|H1].
  { rewrite !slice_start by lra. lra. }
  destruct (Rle_lt_dec 0.55 step) as [H2|H2].
  { rewrite (slice_end step 0.35 0.55) by lra. apply slice_range. }
  rewrite !slice_inside by lra. lra.
Qed.

Lemma stage_gate (step : R) :
  JS.gtb (arrowProg step) 0 || JS.gtb (fileProg step) 0 = true <-> step > 0.35.
Proof.
  rewrite orb_true_iff, !gtb_true. unfold arrowProg, fileProg.
  rewrite !slice_positive by lra. tauto.
Qed.

End Stage.

(** X5 on the first line at half the progress. *)
Lemma NurseScribble_lines_witness :
  exists w,
    nth_error (NurseAssessmentAnimation.NurseScribble (1 / 2)) 0 = Some w
    /\ 0 <= w <= 100.
Proof.
  destruct (NurseScribble_lines (1 / 2)) as [_ H].
  eexists. split; [reflexivity|].
  destruct (H 0%nat _ eq_refl) as [Hr _]. exact Hr.
Defined.

(** X7: the stage between nurse and monitor is empty up to step 0.35 and
    shown above it; the file never runs ahead of the arrow; when the stage
    is shown the arrow is rendered, the file is rendered exactly for a
    non-empty [fileIconUrl], and from step 0.80 on the file sits at the end
    of the path, at its total length. *)
Theorem transfer_stage (createPath : string -> Browser.SVGPathElement)
  (step : R) (fileIconUrl : option string) :
  (NurseAssessmentAnimation.transfer createPath step fileIconUrl = None
   <-> step <= 0.35)
  /\ NurseAssessmentAnimation.fileProg step <= NurseAssessmentAnimation.arrowProg step
  /\ (forall tr,
        NurseAssessmentAnimation.transfer createPath step fileIconUrl = Some tr ->
        NurseAssessmentAnimation.arrow tr <> None
        /\ (NurseAssessmentAnimation.file tr = None
            <-> fileIconUrl = None \/ fileIconUrl = Some EmptyString)
        /\ (0.80 <= step ->
            forall v,
              NurseAssessmentAnimation.file tr = Some v ->
              NurseAssessmentAnimation.leftPct v
              = Browser.x
                  (Browser.getPointAtLength
                     (createPath NurseAssessmentAnimation.pathData)
                     (Browser.getTotalLength
                        (createPath NurseAssessmentAnimation.pathData)))
                / 340 * 100
              /\ NurseAssessmentAnimation.topPct v
                 = Browser.y
                     (Browser.getPointAtLength
                        (createPath NurseAssessmentAnimation.pathData)
                        (Browser.getTotalLength
                           (createPath NurseAssessmentAnimation.pathData)))
                   / 80 * 100)).
Proof.
  unfold NurseAssessmentAnimation.transfer.
  pose proof (stage_gate step) as Hgate.
  destruct (JS.gtb (NurseAssessmentAnimation.arrowProg step) 0
            || JS.gtb (NurseAssessmentAnimation.fileProg step) 0) eqn:G.
  - assert (Hs : step > 0.35) by (apply Hgate; reflexivity). clear Hgate.
    split; [split; [discriminate | lra]|].
    split; [apply fileProg_behind_arrowProg|].
    intros tr H. injection H as <-.
    cbn [NurseAssessmentAnimation.arrow NurseAssessmentAnimation.file].
    assert (Ha : NurseAssessmentAnimation.arrowProg step > 0)
      by (apply slice_positive; lra).
    assert (Hf : NurseAssessmentAnimation.fileProg step > 0)
      by (apply slice_positive; lra).
    assert (Hf1 : 0 <= NurseAssessmentAnimation.fileProg step <= 1)
      by apply slice_range.
    split; [|split].
    + intros Hnone.
      unfold NurseAssessmentAnimation.ArrowToSystem in Hnone.
      destruct (JS.leb (NurseAssessmentAnimation.arrowProg step) 0) eqn:E;
        [|discriminate].
      apply leb_true in E. lra.
    + rewrite FileTransfer_null, truthy_false. split; [|tauto].
      intros [H|[H|H]]; [exact H | lra | lra].
    + intros H80 v Hv.
      assert (E1 : NurseAssessmentAnimation.fileProg step = 1)
        by (apply slice_end; lra).
      rewrite E1 in Hv.
      assert (Ep : NurseAssessmentAnimation.easeInOutQuad
                     (NurseAssessmentAnimation.clamp01 1) = 1).
      { rewrite (clamp_id _ nurse_clamp01_def) by lra.
        unfold NurseAssessmentAnimation.easeInOutQuad. simpl. js_cases; lra. }
      unfold NurseAssessmentAnimation.FileTransfer in Hv.
      destruct (negb (JS.truthy fileIconUrl) || JS.leb 1 0 || JS.gtb 1 1);
        [discriminate|].
      cbv zeta in Hv. rewrite Ep, Rmult_1_r in Hv. injection Hv as <-.
      split; reflexivity.
  - split; [|split; [apply fileProg_behind_arrowProg | discriminate]].
    split; [|reflexivity]. intros _.
    destruct (Rle_lt_dec step 0.35) as [H|H]; [exact H|].
    apply Rlt_gt, Hgate in H. discriminate.
Qed.

(** X7 at step 0.9 with a file icon on the half circle: the stage is shown
    and the file is there. *)
Lemma transfer_stage_witness :
  exists tr,
    NurseAssessmentAnimation.transfer Sample.createPath 0.9
      (Some "/icons/file-icon.png"%string) = Some tr
    /\ NurseAssessmentAnimation.arrow tr <> None
    /\ NurseAssessmentAnimation.file tr <> None.
Proof.
  destruct (transfer_stage Sample.createPath 0.9 (Some "/icons/file-icon.png"%string))
    as (Hnull & _ & Htr).
  destruct (NurseAssessmentAnimation.transfer Sample.createPath 0.9
              (Some "/icons/file-icon.png"%string)) as [tr|] eqn:E.
  - exists tr. destruct (Htr tr eq_refl) as (Ha & Hf & _).
    split; [reflexivity | split; [exact Ha|]].
    intros Hn. apply Hf in Hn. destruct Hn as [Hn|Hn]; discriminate.
  - exfalso. assert (H : 0.9 <= 0.35) by (apply Hnull; reflexivity). lra.
Defined.

(** X8: the monitor cards do not depend on [computerIconUrl]: with or
    without it, a visible card is scaled to 1 and a hidden one to 0.98. *)
Theorem monitor_cards_scale (computerIconUrl : option string) (step : R) :
  NurseAssessmentAnimation.monitor_cards computerIconUrl step
  = NurseAssessmentAnimation.monitor_cards None step
  /\ forall c,
       In c (NurseAssessmentAnimation.monitor_cards computerIconUrl step) ->
       NurseAssessmentAnimation.card_scale c
       = if NurseAssessmentAnimation.card_visible c then 1 else 0.98.
Proof.
  assert (E : NurseAssessmentAnimation.monitor_cards computerIconUrl step
              = NurseAssessmentAnimation.monitor_cards None step).
  { unfold NurseAssessmentAnimation.monitor_cards, NurseAssessmentAnimation.MonitorCard.
    destruct (JS.truthy computerIconUrl); simpl; [|reflexivity].
    repeat f_equal;
      match goal with |- context [if ?b then _ else _] => destruct b end; lra. }
  split; [exact E|]. rewrite E.
  unfold NurseAssessmentAnimation.monitor_cards, NurseAssessmentAnimation.MonitorCard.
  simpl. intros c [<-|[<-|[<-|[]]]]; simpl;
    match goal with |- context [if ?b then _ else _] => destruct b end; lra.
Qed.

(** ** NurseAssessmentAnimation: completion and the loop in the browser *)

Section Completion.

Import NurseAssessmentAnimation.

Lemma complete_effects_fired (onComplete : bool) (steps : list R) :
  forall c, firedComplete c = true -> complete_effects onComplete steps c = c.
Proof.
  induction steps as [|s steps IH]; intros c Hc; [reflexivity|].
  unfold complete_effects in *. simpl.
  unfold complete_effect at 2. rewrite Hc. simpl. now apply IH.
Qed.

Lemma complete_effects_pending (onComplete : bool) (steps : list R) :
  forall c,
    firedComplete c = false ->
    (Exists (fun s => s >= 1) steps ->
     complete_effects onComplete steps c
     = {| firedComplete := true;
          completions := if onComplete then S (completions c) else completions c |})
    /\ (~ Exists (fun s => s >= 1) steps -> complete_effects onComplete steps c = c).
Proof.
  induction steps as [|s steps IH]; intros c Hc.
  - split; [intros H; inversion H | reflexivity].
  - change (complete_effects onComplete (s :: steps) c)
      with (complete_effects onComplete steps (complete_effect onComplete s c)).
    unfold complete_effect. rewrite Hc. simpl.
    destruct (JS.geb s 1) eqn:E.
    + split.
      * intros _. now apply complete_effects_fired.
      * intros H. exfalso. apply H. constructor. now apply geb_true.
    + destruct (IH c Hc) as [IH1 IH2]. split.
      * intros H. apply IH1. inversion H as [? ? Hs|]; subst; [|assumption].
        apply geb_true in Hs. congruence.
      * intros H. apply IH2. intros H'. apply H. now constructor 2.
Qed.

End Completion.

(** X10: [onComplete] is called at most once: over the steps of any
    sequence of renders, starting with [firedComplete] false, the callback
    (when passed) has been called exactly once if some step was [>= 1] and
    not at all otherwise, and once [firedComplete] is true no render calls
    it again. *)
Theorem onComplete_at_most_once (onComplete : bool) (steps : list R) :
  (Exists (fun s => s >= 1) steps ->
   NurseAssessmentAnimation.complete_effects onComplete steps
     {| NurseAssessmentAnimation.firedComplete := false;
        NurseAssessmentAnimation.completions := 0 |}
   = {| NurseAssessmentAnimation.firedComplete := true;
        NurseAssessmentAnimation.completions := if onComplete then 1 else 0 |})
  /\ (~ Exists (fun s => s >= 1) steps ->
      NurseAssessmentAnimation.complete_effects onComplete steps
        {| NurseAssessmentAnimation.firedComplete := false;
           NurseAssessmentAnimation.completions := 0 |}
      = {| NurseAssessmentAnimation.firedComplete := false;
           NurseAssessmentAnimation.completions := 0 |})
  /\ (forall c,
        NurseAssessmentAnimation.firedComplete c = true ->
        NurseAssessmentAnimation.complete_effects onComplete steps c = c).
Proof.
  split; [|split].
  - intros H.
    now apply (complete_effects_pending onComplete steps
                 {| NurseAssessmentAnimation.firedComplete := false;
                    NurseAssessmentAnimation.completions := 0 |}).
  - intros H.
    now apply (complete_effects_pending onComplete steps
                 {| NurseAssessmentAnimation.firedComplete := false;
                    NurseAssessmentAnimation.completions := 0 |}).
  - apply complete_effects_fired.
Qed.

(** X10 over renders at steps 0.5, 1, 1: one call. *)
Lemma onComplete_at_most_once_witness :
  NurseAssessmentAnimation.completions
    (NurseAssessmentAnimation.complete_effects true [0.5; 1; 1]
       {| NurseAssessmentAnimation.firedComplete := false;
          NurseAssessmentAnimation.completions := 0 |}) = 1%nat.
Proof.
  destruct (onComplete_at_most_once true [0.5; 1; 1]) as [H _].
  rewrite H; [reflexivity|].
  constructor 2. constructor. lra.
Defined.

Section NurseWorld.

Import NurseAssessmentAnimation.

Lemma run_frame_live_loop (now : R) (w : World) :
  Browser.callbacks (browser w) = [raf w] ->
  Browser.callbacks (browser (run_frame now w)) = [raf (run_frame now w)]
  /\ raf (run_frame now w) = S (Browser.identifier (browser w))
  /\ Browser.identifier (browser (run_frame now w)) = S (Browser.identifier (browser w))
  /\ loop (run_frame now w) = tick now (loop w).
Proof.
  unfold run_frame. intros ->. simpl. repeat split.
Qed.

Lemma run_frames_live_loop (nows : list R) :
  forall w,
    Browser.callbacks (browser w) = [raf w] ->
    Browser.callbacks (browser (run_frames nows w)) = [raf (run_frames nows w)]
    /\ Browser.identifier (browser (run_frames nows w))
       = (Browser.identifier (browser w) + List.length nows)%nat
    /\ loop (run_frames nows w) = ticks nows (loop w).
Proof.
  induction nows as [|now rest IH]; intros w Hw.
  - simpl. rewrite Nat.add_0_r. auto.
  - destruct (run_frame_live_loop now w Hw) as (Hc & _ & Hi & Hl).
    destruct (IH (run_frame now w) Hc) as (Hc' & Hi' & Hl').
    change (run_frames (now :: rest) w) with (run_frames rest (run_frame now w)).
    rewrite Hi' , Hi, Hl', Hl. simpl. repeat split; [exact Hc' | lia].
Qed.

Lemma run_frames_quiet_loop (nows : list R) :
  forall w,
    Browser.callbacks (browser w) = [] ->
    Browser.callbacks (browser (run_frames nows w)) = []
    /\ loop (run_frames nows w) = loop w.
Proof.
  induction nows as [|now rest IH]; intros w Hw; [auto|].
  change (run_frames (now :: rest) w) with (run_frames rest (run_frame now w)).
  assert (Hq : Browser.callbacks (browser (run_frame now w)) = []
               /\ loop (run_frame now w) = loop w).
  { unfold run_frame. rewrite Hw. simpl. auto. }
  destruct Hq as [Hq Hl]. destruct (IH _ Hq) as [Hq' Hl'].
  rewrite Hl', Hl. auto.
Qed.

End NurseWorld.

(** X11: the loop of NurseAssessmentAnimation never stops by itself: after
    the effect and any number of frames exactly one frame request is
    outstanding, the one under the handle in [raf], whatever the step; the
    loop state is that of [ticks] over the frames' timestamps; the cleanup
    cancels the outstanding request, and after it no frame changes the
    loop. *)
Theorem nurse_loop_runs_until_cleanup (now0 : R) (b : Browser.t)
  (playing : bool) (speed step : R) (nows : list R) :
  Browser.callbacks b = [] ->
  Browser.callbacks
    (NurseAssessmentAnimation.browser
       (NurseAssessmentAnimation.run_frames nows
          (NurseAssessmentAnimation.run_effect now0 b playing speed step)))
  = [ NurseAssessmentAnimation.raf
        (NurseAssessmentAnimation.run_frames nows
           (NurseAssessmentAnimation.run_effect now0 b playing speed step)) ]
  /\ NurseAssessmentAnimation.loop
       (NurseAssessmentAnimation.run_frames nows
          (NurseAssessmentAnimation.run_effect now0 b playing speed step))
     = NurseAssessmentAnimation.ticks nows
         {| NurseAssessmentAnimation.isPlaying := playing;
            NurseAssessmentAnimation.speed := speed;
            NurseAssessmentAnimation.step := step;
            NurseAssessmentAnimation.last := now0 |}
  /\ (forall nows',
        Browser.callbacks
          (NurseAssessmentAnimation.browser
             (NurseAssessmentAnimation.run_frames nows'
                (NurseAssessmentAnimation.cleanup
                   (NurseAssessmentAnimation.run_frames nows
                      (NurseAssessmentAnimation.run_effect now0 b playing speed step)))))
        = []
        /\ NurseAssessmentAnimation.loop
             (NurseAssessmentAnimation.run_frames nows'
                (NurseAssessmentAnimation.cleanup
                   (NurseAssessmentAnimation.run_frames nows
                      (NurseAssessmentAnimation.run_effect now0 b playing speed step))))
           = NurseAssessmentAnimation.loop
               (NurseAssessmentAnimation.run_frames nows
                  (NurseAssessmentAnimation.run_effect now0 b playing speed step))).
Proof.
  intros Hb.
  assert (H0 : Browser.callbacks
                 (NurseAssessmentAnimation.browser
                    (NurseAssessmentAnimation.run_effect now0 b playing speed step))
               = [NurseAssessmentAnimation.raf
                    (NurseAssessmentAnimation.run_effect now0 b playing speed step)]).
  { unfold NurseAssessmentAnimation.run_effect. simpl. now rewrite Hb. }
  destruct (run_frames_live_loop nows _ H0) as (Hc & _ & Hl).
  split; [exact Hc|]. split; [exact Hl|].
  intros nows'.
  apply (run_frames_quiet_loop nows'
           (NurseAssessmentAnimation.cleanup
              (NurseAssessmentAnimation.run_frames nows
                 (NurseAssessmentAnimation.run_effect now0 b playing speed step)))).
  unfold NurseAssessmentAnimation.cleanup. simpl. rewrite Hc. simpl.
  destruct (Nat.eq_dec _ _); [reflexivity | contradiction].
Qed.

(** X11 in a fresh browser, two frames after the step has reached 1: a
    request is still outstanding. *)
Lemma nurse_loop_runs_until_cleanup_witness :
  List.length
    (Browser.callbacks
       (NurseAssessmentAnimation.browser
          (NurseAssessmentAnimation.run_frames [7000; 7016]
             (NurseAssessmentAnimation.run_effect 0 Sample.fresh true 1 1))))
  = 1%nat.
Proof.
  destruct (nurse_loop_runs_until_cleanup 0 Sample.fresh true 1 1 [7000; 7016] eq_refl)
    as (Hc & _ & _).
  rewrite Hc. reflexivity.
Defined.

(** ** DoctorProcessAnimation: what is rendered, and where *)

Section DoctorView.

Import DoctorProcessAnimation.

Lemma step_items_titles (a : Bound) :
  map item_text (step_items a) = map title (b_steps a).
Proof.
  unfold step_items, JS.map_indexed. generalize 0%nat.
  induction (b_steps a) as [|s l IH]; intros k; simpl; [reflexivity|].
  now rewrite IH.
Qed.

Lemma handoff_none (a : Bound) (coords : option Coords) :
  handoff a coords = None
  <-> b_disableFinalHandoff a = true \/ JS.truthy (b_fileIconUrl a) = false
      \/ coords = None.
Proof.
  unfold handoff.
  destruct (b_disableFinalHandoff a), (JS.truthy (b_fileIconUrl a)), coords; simpl;
    split; intros H; try reflexivity; try discriminate; try tauto;
    destruct H as [H|[H|H]]; discriminate.
Qed.

Lemma reset_effect_runId (prevStart : bool) (a : Bound) (st : State) :
  (runId st <= runId (reset_effect prevStart a st))%nat
  /\ (noteVisible st = false -> noteVisible (reset_effect prevStart a st) = false).
Proof.
  unfold reset_effect. destruct (_ || _); simpl; split; auto; lia.
Qed.

Lemma note_stays_hidden (p : DoctorProcessAnimationProps) (evs : list Event) :
  b_start (destructure p) = false
  \/ b_disableFinalHandoff (destructure p) = true
  \/ JS.truthy (b_fileIconUrl (destructure p)) = false ->
  forall st, noteVisible st = false -> noteVisible (run p evs st) = false.
Proof.
  intros Hp. induction evs as [|ev evs IH]; intros st Hst; [exact Hst|].
  change (run p (ev :: evs) st) with (run p evs (step p st ev)).
  apply IH. destruct ev as [prevStart|coords]; simpl.
  - now apply reset_effect_runId.
  - unfold render.
    destruct (b_start (destructure p)) eqn:Es; [|exact Hst].
    simpl. destruct (handoff (destructure p) coords) eqn:Eh; [|exact Hst].
    exfalso.
    assert (Hn : handoff (destructure p) coords = None).
    { apply handoff_none. destruct Hp as [H|[H|H]]; [discriminate | tauto | tauto]. }
    congruence.
Qed.

End DoctorView.

(** X12: DoctorProcessAnimation always returns its outer container, which
    reserves the height; the animated pane inside it is absent exactly when
    [start] is omitted or false; when present it lists the titles of the
    steps in their order, shows the clinical note card unless the final
    handoff is disabled, and holds the handoff file exactly when the
    handoff is not disabled, [fileIconUrl] is non-empty and the coordinates
    have been measured. *)
Theorem doctor_render_parts (p : DoctorProcessAnimation.DoctorProcessAnimationProps)
  (noteVisible : bool) (coords : option DoctorProcessAnimation.Coords) :
  DoctorProcessAnimation.className
    (DoctorProcessAnimation.DoctorProcessAnimation p noteVisible coords)
  = "w-full min-h-[420px]"%string
  /\ (DoctorProcessAnimation.pane
        (DoctorProcessAnimation.DoctorProcessAnimation p noteVisible coords) = None
      <-> DoctorProcessAnimation.start p = None
          \/ DoctorProcessAnimation.start p = Some false)
  /\ (forall v,
        DoctorProcessAnimation.pane
          (DoctorProcessAnimation.DoctorProcessAnimation p noteVisible coords) = Some v ->
        map DoctorProcessAnimation.item_text (DoctorProcessAnimation.view_items v)
        = map DoctorProcessAnimation.title
            (DoctorProcessAnimation.b_steps (DoctorProcessAnimation.destructure p))
        /\ (DoctorProcessAnimation.view_note v = None
            <-> DoctorProcessAnimation.disableFinalHandoff p = Some true)
        /\ (DoctorProcessAnimation.view_handoff v = None
            <-> DoctorProcessAnimation.disableFinalHandoff p = Some true
                \/ DoctorProcessAnimation.fileIconUrl p = None
                \/ DoctorProcessAnimation.fileIconUrl p = Some EmptyString
                \/ coords = None)).
Proof.
  unfold DoctorProcessAnimation.DoctorProcessAnimation.
  cbn [DoctorProcessAnimation.className DoctorProcessAnimation.pane].
  split; [reflexivity|].
  unfold DoctorProcessAnimation.render. split.
  - simpl. destruct (DoctorProcessAnimation.start p) as [[|]|]; simpl;
      split; intros H; try reflexivity; try discriminate; try tauto;
      destruct H as [H|H]; discriminate.
  - intros v. destruct (DoctorProcessAnimation.b_start _); [|discriminate].
    intros H. injection H as <-.
    cbn [DoctorProcessAnimation.view_items DoctorProcessAnimation.view_note
         DoctorProcessAnimation.view_handoff].
    split; [apply step_items_titles|]. split.
    + simpl. destruct (DoctorProcessAnimation.disableFinalHandoff p) as [[|]|]; simpl;
        split; intros H; try reflexivity; discriminate.
    + rewrite handoff_none, truthy_false. simpl.
      destruct (DoctorProcessAnimation.disableFinalHandoff p) as [[|]|]; simpl;
        split; intros H; try tauto;
        destruct H as [H|H]; try discriminate; tauto.
Qed.

(** X13: the clinical note card stays hidden without the handoff: when
    [start] is false, or the final handoff is disabled, or [fileIconUrl] is
    undefined or empty, no sequence of reset effects and animation
    completions makes [noteVisible] true. *)
Theorem note_needs_the_handoff (p : DoctorProcessAnimation.DoctorProcessAnimationProps)
  (evs : list DoctorProcessAnimation.Event) (st : DoctorProcessAnimation.State) :
  DoctorProcessAnimation.start p = None
  \/ DoctorProcessAnimation.start p = Some false
  \/ DoctorProcessAnimation.disableFinalHandoff p = Some true
  \/ DoctorProcessAnimation.fileIconUrl p = None
  \/ DoctorProcessAnimation.fileIconUrl p = Some EmptyString ->
  DoctorProcessAnimation.noteVisible st = false ->
  DoctorProcessAnimation.noteVisible (DoctorProcessAnimation.run p evs st) = false.
Proof.
  intros Hp Hst. apply note_stays_hidden; [|exact Hst].
  simpl. destruct Hp as [H|[H|[H|[H|H]]]]; rewrite H; simpl; tauto.
Qed.

(** X13 with every prop but [start] omitted: the animation of a file that
    is not there cannot complete. *)
Lemma note_needs_the_handoff_witness :
  DoctorProcessAnimation.noteVisible
    (DoctorProcessAnimation.run Sample.no_props
       [DoctorProcessAnimation.Effect false; DoctorProcessAnimation.AnimationComplete None]
       {| DoctorProcessAnimation.runId := 0;
          DoctorProcessAnimation.noteVisible := false |}) = false.
Proof.
  apply note_needs_the_handoff; [left; reflexivity | reflexivity].
Defined.

(** X14: [recomputeCoords] leaves the coordinates as they were whenever
    one or more of the three refs is not attached, whatever the others are;
    with all three attached it replaces them, and then the file's start is
    not to the right of its end when the doctor's anchor (60% of its width)
    is not to the right of the screen's centre, and not below its end when
    the doctor's anchor (45% of its height) is not below the screen's
    centre. *)
Theorem recomputeCoords_refs (container doctor screen : option Browser.DOMRect)
  (coords : option DoctorProcessAnimation.Coords) :
  (container = None \/ doctor = None \/ screen = None ->
   DoctorProcessAnimation.recomputeCoords container doctor screen coords = coords)
  /\ (forall c d s,
        container = Some c -> doctor = Some d -> screen = Some s ->
        exists k,
          DoctorProcessAnimation.recomputeCoords container doctor screen coords = Some k
          /\ (Browser.left d + Browser.width d * 0.6
              <= Browser.left s + Browser.width s * 0.5 ->
              DoctorProcessAnimation.startLeft k <= DoctorProcessAnimation.endLeft k)
          /\ (Browser.top d + Browser.height d * 0.45
              <= Browser.top s + Browser.height s * 0.5 ->
              DoctorProcessAnimation.startTop k <= DoctorProcessAnimation.endTop k)).
Proof.
  unfold DoctorProcessAnimation.recomputeCoords. split.
  - intros [-> | [-> | ->]]; [reflexivity | |].
    + now destruct container.
    + now destruct container, doctor.
  - intros c d s -> -> ->. eexists. split; [reflexivity|]. simpl.
    split; intros H; lra.
Qed.

(** X14 for a doctor at (100, 200) and a screen at (500, 220) in a container
    at (50, 150): the file travels to the right and downwards; and with the
    screen not attached nothing is measured. *)
Lemma recomputeCoords_refs_witness :
  (exists k,
     DoctorProcessAnimation.recomputeCoords
       (Some {| Browser.left := 50; Browser.top := 150;
                Browser.width := 900; Browser.height := 420 |})
       (Some {| Browser.left := 100; Browser.top := 200;
                Browser.width := 96; Browser.height := 96 |})
       (Some {| Browser.left := 500; Browser.top := 220;
                Browser.width := 296; Browser.height := 140 |})
       None = Some k
     /\ DoctorProcessAnimation.startLeft k <= DoctorProcessAnimation.endLeft k
     /\ DoctorProcessAnimation.startTop k <= DoctorProcessAnimation.endTop k)
  /\ DoctorProcessAnimation.recomputeCoords
       (Some {| Browser.left := 50; Browser.top := 150;
                Browser.width := 900; Browser.height := 420 |})
       (Some {| Browser.left := 100; Browser.top := 200;
                Browser.width := 96; Browser.height := 96 |})
       None None = None.
Proof.
  split.
  - destruct (proj2 (recomputeCoords_refs
                       (Some {| Browser.left := 50; Browser.top := 150;
                                Browser.width := 900; Browser.height := 420 |})
                       (Some {| Browser.left := 100; Browser.top := 200;
                                Browser.width := 96; Browser.height := 96 |})
                       (Some {| Browser.left := 500; Browser.top := 220;
                                Browser.width := 296; Browser.height := 140 |})
                       None) _ _ _ eq_refl eq_refl eq_refl) as (k & E & Hx & Hy).
    exists k. split; [exact E | split; [apply Hx | apply Hy]]; simpl; lra.
  - apply (proj1 (recomputeCoords_refs
                    (Some {| Browser.left := 50; Browser.top := 150;
                             Browser.width := 900; Browser.height := 420 |})
                    (Some {| Browser.left := 100; Browser.top := 200;
                             Browser.width := 96; Browser.height := 96 |})
                    None None)).
    right. right. reflexivity.
Defined.

(** ** CombinedAnimation: restarts and the bottom pane *)

Section Restarts.

Import CombinedAnimation.

Lemma act_started (s : State.t) (a : Action) :
  State.bottomStartedOnce (act s a)
  = match a with
    | TopComplete => true
    | RestartKey _ => State.bottomStartedOnce s
    end.
Proof.
  destruct a as [|[k|]]; simpl; try reflexivity.
  unfold handleTopComplete. destruct (State.bottomStartedOnce s) eqn:E; simpl; auto.
Qed.

Lemma act_run (s : State.t) (a : Action) :
  State.bridgeRun (act s a)
  = match a with
    | RestartKey None => State.bridgeRun s
    | _ => (State.bridgeRun s + 1)%nat
    end.
Proof.
  destruct a as [|[k|]]; simpl; try reflexivity.
  unfold handleTopComplete. destruct (negb _); reflexivity.
Qed.

Lemma acts_cons (a : Action) (l : list Action) (s : State.t) :
  acts (a :: l) s = acts l (act s a).
Proof. reflexivity. Qed.

Lemma acts_latch (l : list Action) :
  forall s, State.bottomStartedOnce s = true ->
            State.bottomStartedOnce (acts l s) = true.
Proof.
  induction l as [|a l IH]; intros s Hs; [exact Hs|].
  rewrite acts_cons. apply IH. rewrite act_started. now destruct a.
Qed.

Lemma acts_top (l : list Action) :
  forall s, In TopComplete l -> State.bottomStartedOnce (acts l s) = true.
Proof.
  induction l as [|a l IH]; intros s Hin; [contradiction|].
  rewrite acts_cons. destruct Hin as [->|Hin].
  - apply acts_latch. now rewrite act_started.
  - now apply IH.
Qed.

Lemma acts_no_top (l : list Action) :
  forall s, ~ In TopComplete l ->
            State.bottomStartedOnce (acts l s) = State.bottomStartedOnce s.
Proof.
  induction l as [|a l IH]; intros s Hin; [reflexivity|].
  rewrite acts_cons, IH by (intros H; apply Hin; now right).
  rewrite act_started. destruct a; [|reflexivity].
  exfalso. apply Hin. now left.
Qed.

Lemma acts_run_bounds (l : list Action) :
  forall s, (State.bridgeRun s <= State.bridgeRun (acts l s)
             <= State.bridgeRun s + List.length l)%nat.
Proof.
  induction l as [|a l IH]; intros s; [simpl; lia|].
  rewrite acts_cons. specialize (IH (act s a)). rewrite act_run in IH.
  simpl. destruct a as [|[k|]]; lia.
Qed.

Lemma acts_run_unchanged (l : list Action) :
  forall s, State.bridgeRun (acts l s) = State.bridgeRun s
            <-> Forall (fun a => a = RestartKey None) l.
Proof.
  induction l as [|a l IH]; intros s; [split; auto|].
  rewrite acts_cons.
  pose proof (acts_run_bounds l (act s a)) as Hb. rewrite act_run in Hb.
  split.
  - intros H. destruct a as [|[k|]]; try lia.
    constructor; [reflexivity|]. apply (IH (act s (RestartKey None))). exact H.
  - intros H. inversion H as [|? ? -> Hl]; subst.
    apply (IH (act s (RestartKey None))) in Hl. exact Hl.
Qed.

End Restarts.

(** X15: [bottomStartedOnce] is a latch set by the first completion of the
    top animation and never reset; the bottom pane, which receives it as
    [start], always renders its outer container, while its animated pane is
    absent until the first top completion and present from then on; every
    top completion and every defined [externalRestartKey] adds one to
    [bridgeRun], so [bridgeRun] is still 0 exactly when nothing has
    restarted the file. *)
Theorem bottom_pane_starts_once (p : CombinedAnimation.CombinedAnimationProps)
  (l : list CombinedAnimation.Action) (s : CombinedAnimation.State.t)
  (noteVisible : bool) (coords : option DoctorProcessAnimation.Coords) :
  (CombinedAnimation.State.bottomStartedOnce s = true ->
   CombinedAnimation.State.bottomStartedOnce (CombinedAnimation.acts l s) = true)
  /\ (In CombinedAnimation.TopComplete l ->
      CombinedAnimation.State.bottomStartedOnce (CombinedAnimation.acts l s) = true)
  /\ DoctorProcessAnimation.className
       (DoctorProcessAnimation.DoctorProcessAnimation
          (CombinedAnimation.doctor_props p
             (CombinedAnimation.acts l CombinedAnimation.initial))
          noteVisible coords)
     = "w-full min-h-[420px]"%string
  /\ (DoctorProcessAnimation.pane
        (DoctorProcessAnimation.DoctorProcessAnimation
           (CombinedAnimation.doctor_props p
              (CombinedAnimation.acts l CombinedAnimation.initial))
           noteVisible coords) = None
      <-> ~ In CombinedAnimation.TopComplete l)
  /\ (CombinedAnimation.State.bridgeRun s
      <= CombinedAnimation.State.bridgeRun (CombinedAnimation.acts l s)
      <= CombinedAnimation.State.bridgeRun s + List.length l)%nat
  /\ (CombinedAnimation.State.bridgeRun
        (CombinedAnimation.acts l CombinedAnimation.initial) = 0%nat
      <-> Forall (fun a => a = CombinedAnimation.RestartKey None) l).
Proof.
  split; [apply acts_latch|]. split; [apply acts_top|].
  split; [reflexivity|].
  split; [|split; [apply acts_run_bounds|]].
  - unfold DoctorProcessAnimation.DoctorProcessAnimation, DoctorProcessAnimation.render.
    simpl.
    destruct (CombinedAnimation.State.bottomStartedOnce
                (CombinedAnimation.acts l CombinedAnimation.initial)) eqn:E.
    + split; [discriminate|]. intros Hn.
      rewrite acts_no_top in E by exact Hn. discriminate.
    + split; [|reflexivity]. intros _ Hin.
      rewrite (acts_top l _ Hin) in E. discriminate.
  - apply (acts_run_unchanged l CombinedAnimation.initial).
Qed.

(** X15 for a restart key, the top completion and another restart key: the
    bottom pane has started and stays started. *)
Lemma bottom_pane_starts_once_witness :
  CombinedAnimation.State.bottomStartedOnce
    (CombinedAnimation.acts
       [ CombinedAnimation.RestartKey (Some 1);
         CombinedAnimation.TopComplete;
         CombinedAnimation.RestartKey (Some 2) ]
       CombinedAnimation.initial) = true.
Proof.
  refine (proj1 (proj2 (bottom_pane_starts_once
                          {| CombinedAnimation.nurseIconUrl := None;
                             CombinedAnimation.computerIconUrl := None;
                             CombinedAnimation.fileIconUrl := None;
                             CombinedAnimation.doctorIconUrl := None;
                             CombinedAnimation.bottomSteps := None;
                             CombinedAnimation.bridgeDurationMs := None;
                             CombinedAnimation.showPathDebug := None;
                             CombinedAnimation.externalRestartKey := None |}
                          _ CombinedAnimation.initial false None)) _).
  right. left. reflexivity.
Defined.

Section BridgeProgress.

Import CombinedAnimation.

Variable duration : R.
Hypothesis duration_pos : 0 < duration.

Lemma cleanup_bridgeProg (w : World) : bridgeProg (cleanup w) = bridgeProg w.
Proof. unfold cleanup. destruct (effect w); reflexivity. Qed.

Lemma step_bridgeProg_unit (now0 : R) (w : World) (ev : Event) :
  loop_invariant now0 w ->
  match ev with AnimationFrame now => now0 <= now | Cleanup => True end ->
  0 <= bridgeProg w <= 1 ->
  0 <= bridgeProg (step duration w ev) <= 1.
Proof.
  intros Hinv Hev Hw. destruct ev as [now|]; simpl.
  - destruct (list_eq_dec Nat.eq_dec (outstanding w) []) as [Hq|Hl].
    + destruct (run_frame_quiet duration now w Hq) as (_ & _ & Hp). now rewrite Hp.
    + destruct (frame_of_live_loop duration now0 now w Hinv Hl) as [Hp _].
      rewrite Hp. now apply progress_unit.
  - now rewrite cleanup_bridgeProg.
Qed.

Lemma run_bridgeProg_unit (now0 : R) (evs : list Event) :
  forall w,
    loop_invariant now0 w ->
    Forall (fun ev => match ev with AnimationFrame now => now0 <= now | Cleanup => True end)
           evs ->
    0 <= bridgeProg w <= 1 ->
    0 <= bridgeProg (run duration evs w) <= 1.
Proof.
  induction evs as [|ev evs IH]; intros w Hinv Hevs Hw; [exact Hw|].
  inversion Hevs as [|? ? Hev Hrest]; subst.
  change (run duration (ev :: evs) w) with (run duration evs (step duration w ev)).
  apply IH; [now apply step_invariant | exact Hrest | now apply (step_bridgeProg_unit now0)].
Qed.

End BridgeProgress.

(** X16: with a positive duration, a [bridgeProg] that starts in [0,1] and
    frames that are not earlier than the effect's start time, [bridgeProg]
    stays in [0,1] through any frames and cleanups, so the [clamp01] of
    [BridgePath] leaves it as it is. *)
Theorem bridgeProg_stays_in_unit (duration : R) (bridgeRun : nat) (now0 : R)
  (b : Browser.t) (prog : R) (evs : list CombinedAnimation.Event) :
  0 < duration ->
  Browser.callbacks b = [] ->
  0 <= prog <= 1 ->
  Forall (fun ev => match ev with
                    | CombinedAnimation.AnimationFrame now => now0 <= now
                    | CombinedAnimation.Cleanup => True
                    end) evs ->
  0 <= CombinedAnimation.bridgeProg
         (CombinedAnimation.run duration evs
            (CombinedAnimation.run_effect bridgeRun now0 b prog)) <= 1
  /\ CombinedAnimation.clamp01
       (CombinedAnimation.bridgeProg
          (CombinedAnimation.run duration evs
             (CombinedAnimation.run_effect bridgeRun now0 b prog)))
     = CombinedAnimation.bridgeProg
         (CombinedAnimation.run duration evs
            (CombinedAnimation.run_effect bridgeRun now0 b prog)).
Proof.
  intros Hd Hb Hp Hevs.
  assert (H : 0 <= CombinedAnimation.bridgeProg
                     (CombinedAnimation.run duration evs
                        (CombinedAnimation.run_effect bridgeRun now0 b prog)) <= 1).
  { apply (run_bridgeProg_unit duration Hd now0); try assumption.
    - now apply run_effect_invariant.
    - unfold CombinedAnimation.run_effect.
      destruct (bridgeRun =? 0)%nat; simpl; exact Hp. }
  split; [exact H | now apply (clamp_id _ combined_clamp01_def)].
Qed.

(** X16 for the default duration in a fresh browser, with frames at 400 ms
    and 2000 ms and a cleanup. *)
Lemma bridgeProg_stays_in_unit_witness :
  0 <= CombinedAnimation.bridgeProg
         (CombinedAnimation.run 1200
            [ CombinedAnimation.AnimationFrame 400;
              CombinedAnimation.AnimationFrame 2000;
              CombinedAnimation.Cleanup ]
            (CombinedAnimation.run_effect 1 0 Sample.fresh 0)) <= 1.
Proof.
  assert (Hd : 0 < 1200) by lra.
  assert (Hp : 0 <= 0 <= 1) by lra.
  assert (Hevs : Forall (fun ev => match ev with
                                   | CombinedAnimation.AnimationFrame now => 0 <= now
                                   | CombinedAnimation.Cleanup => True
                                   end)
                   [ CombinedAnimation.AnimationFrame 400;
                     CombinedAnimation.AnimationFrame 2000;
                     CombinedAnimation.Cleanup ]).
  { repeat constructor; lra. }
  exact (proj1 (bridgeProg_stays_in_unit 1200 1 0 Sample.fresh 0 _ Hd eq_refl Hp Hevs)).
Defined.

(** X17: every restart starts the bridge loop from the beginning: a top
    completion or a defined [externalRestartKey] sets [bridgeProg] to 0 and
    adds one to [bridgeRun], and the effect for the new [bridgeRun] requests
    exactly one frame; the effect of the initial mount, with [bridgeRun] 0,
    requests none. *)
Theorem restart_starts_bridge_loop (s : CombinedAnimation.State.t)
  (a : CombinedAnimation.Action) (now : R) (b : Browser.t) :
  Browser.callbacks b = [] ->
  a <> CombinedAnimation.RestartKey None ->
  CombinedAnimation.State.bridgeProg (CombinedAnimation.act s a) = 0
  /\ CombinedAnimation.State.bridgeRun (CombinedAnimation.act s a)
     = (CombinedAnimation.State.bridgeRun s + 1)%nat
  /\ CombinedAnimation.outstanding
       (CombinedAnimation.run_effect
          (CombinedAnimation.State.bridgeRun (CombinedAnimation.act s a)) now b
          (CombinedAnimation.State.bridgeProg (CombinedAnimation.act s a)))
     = [S (Browser.identifier b)]
  /\ CombinedAnimation.outstanding
       (CombinedAnimation.run_effect
          (CombinedAnimation.State.bridgeRun CombinedAnimation.initial) now b
          (CombinedAnimation.State.bridgeProg CombinedAnimation.initial))
     = [].
Proof.
  intros Hb Ha.
  assert (Hrun : CombinedAnimation.State.bridgeRun (CombinedAnimation.act s a)
                 = (CombinedAnimation.State.bridgeRun s + 1)%nat).
  { rewrite act_run. destruct a as [|[k|]]; try reflexivity. contradiction. }
  assert (Hprog : CombinedAnimation.State.bridgeProg (CombinedAnimation.act s a) = 0).
  { destruct a as [|[k|]]; simpl; try reflexivity; [|contradiction].
    unfold CombinedAnimation.handleTopComplete. destruct (negb _); reflexivity. }
  split; [exact Hprog|]. split; [exact Hrun|]. split.
  - rewrite Hrun. unfold CombinedAnimation.run_effect, CombinedAnimation.outstanding.
    replace (CombinedAnimation.State.bridgeRun s + 1 =? 0)%nat with false
      by (symmetry; apply Nat.eqb_neq; lia).
    simpl. now rewrite Hb.
  - unfold CombinedAnimation.run_effect, CombinedAnimation.outstanding. simpl. exact Hb.
Qed.

(** X17 for the first top completion in a fresh browser. *)
Lemma restart_starts_bridge_loop_witness :
  CombinedAnimation.outstanding
    (CombinedAnimation.run_effect
       (CombinedAnimation.State.bridgeRun
          (CombinedAnimation.act CombinedAnimation.initial CombinedAnimation.TopComplete))
       0 Sample.fresh
       (CombinedAnimation.State.bridgeProg
          (CombinedAnimation.act CombinedAnimation.initial CombinedAnimation.TopComplete)))
  = [1%nat].
Proof.
  assert (Ha : CombinedAnimation.TopComplete <> CombinedAnimation.RestartKey None)
    by discriminate.
  exact (proj1 (proj2 (proj2
           (restart_starts_bridge_loop CombinedAnimation.initial
              CombinedAnimation.TopComplete 0 Sample.fresh eq_refl Ha)))).
Defined.

(** X8 for the Vitals card at step 0.7 over a computer image. *)
Lemma monitor_cards_scale_witness :
  exists c,
    nth_error (NurseAssessmentAnimation.monitor_cards
                 (Some "/icons/computer_icon.png"%string) 0.7) 0 = Some c
    /\ NurseAssessmentAnimation.card_scale c
       = if NurseAssessmentAnimation.card_visible c then 1 else 0.98.
Proof.
  eexists. split; [reflexivity|].
  apply (proj2 (monitor_cards_scale (Some "/icons/computer_icon.png"%string) 0.7)).
  left. reflexivity.
Defined.

(** X12 started with a file icon and nothing measured yet: the five
    default titles are listed inside the container. *)
Lemma doctor_render_parts_witness :
  exists v,
    DoctorProcessAnimation.pane
      (DoctorProcessAnimation.DoctorProcessAnimation Sample.with_file false None) = Some v
    /\ map DoctorProcessAnimation.item_text (DoctorProcessAnimation.view_items v)
       = [ "Lab Order"; "Prescription Order"; "Imaging Order"; "Follow up";
           "Referral" ]%string.
Proof.
  eexists. split; [reflexivity|].
  exact (proj1 (proj2 (proj2 (doctor_render_parts Sample.with_file false None))
                  _ eq_refl)).
Defined.
